(** * Personal expense tracker (src/test02.py): a shallow embedding

    The module under study is a small CRUD store: [Expense] is a dataclass,
    [ExpenseTracker] owns a list of expenses, mirrors it into a JSON file and
    answers a few linear-scan queries.

    Conventions of the embedding.
    - Python [float] is the kernel's binary64 ([PrimFloat.float]); comparison
      and arithmetic are the IEEE operations, as in CPython.
    - Python [str] is [string], holding the UTF-8 encoding of the text: one
      to four bytes per character (lone surrogates, which have no encoding,
      are left out). Equal texts have equal encodings.
    - [datetime.date] is a record of year, month and day that carries the
      validity check the library performs in its constructor.
    - A Python function that can raise returns an [outcome]; a method that
      mutates [self], writes the backing file or logs takes the tracker and
      the world and returns the new ones.
    - The clock, [hash] on strings and the builtin [round] live outside the
      module; they are parameters of the development. So is what changes
      from one CPython release to the next: the formats [date.fromisoformat]
      reads besides [YYYY-MM-DD], and how the builtin [sum] adds floats
      (class [Interpreter]). *)

From Stdlib Require Import ZArith Ascii String Floats Uint63.
From stdpp Require Import base decidable option list strings gmap pretty.

Set Default Proof Using "Type".
Set Warnings "-inexact-float".

Local Open Scope string_scope.
Local Open Scope Z_scope.

(** ** Exceptions and outcomes *)

(** The two messages [add_expense] puts into a [ValueError] (the
    specification's ValidationError), and the one [date.fromisoformat] (or
    the [date] constructor it ends in) raises. *)
Inductive value_error : Set :=
  | AmountNotPositive      (* "支出金額必須大於零" *)
  | EmptyDescription       (* "支出描述不能為空" *)
  | InvalidIsoformat.      (* "Invalid isoformat string" / "... out of range" *)

Inductive exn : Set :=
  | ValueError (why : value_error)
  | KeyError (key : string)
  | TypeError
  | JSONDecodeError
  | OSError.

Inductive outcome (A : Type) : Type :=
  | Return (a : A)
  | Raise (e : exn).
Arguments Return {A} a.
Arguments Raise {A} e.

(** Sequencing: an exception raised by the first step skips the rest. *)
#[global] Instance outcome_bind : MBind outcome := λ A B k m,
  match m with
  | Return a => k a
  | Raise e => Raise e
  end.

(** ** Strings: [str.strip] *)

Definition byte (c : ascii) : Z := Z.of_N (N_of_ascii c).

(** The characters [str.isspace] holds for, by the length of their UTF-8
    encoding. One byte: TAB..CR, FS..US and the space. *)
Definition isspace1 (c : ascii) : bool :=
  ((9 <=? byte c) && (byte c <=? 13)) || ((28 <=? byte c) && (byte c <=? 32)).

(** Two bytes: U+0085 (C2 85) and U+00A0 (C2 A0). *)
Definition isspace2 (c1 c2 : ascii) : bool :=
  (byte c1 =? 194) && ((byte c2 =? 133) || (byte c2 =? 160)).

(** Three bytes: U+1680 (E1 9A 80), U+2000..U+200A (E2 80 80..8A), U+2028
    and U+2029 (E2 80 A8, A9), U+202F (E2 80 AF), U+205F (E2 81 9F) and
    U+3000 (E3 80 80). *)
Definition isspace3 (c1 c2 c3 : ascii) : bool :=
  ((byte c1 =? 225) && (byte c2 =? 154) && (byte c3 =? 128))
  || ((byte c1 =? 226) && (byte c2 =? 128)
      && (((128 <=? byte c3) && (byte c3 <=? 138))
          || (byte c3 =? 168) || (byte c3 =? 169) || (byte c3 =? 175)))
  || ((byte c1 =? 226) && (byte c2 =? 129) && (byte c3 =? 159))
  || ((byte c1 =? 227) && (byte c2 =? 128) && (byte c3 =? 128)).

(** The text after its first character, when that character is a blank. *)
Definition after_blank (s : string) : option string :=
  match s with
  | String c1 s1 =>
      if isspace1 c1 then Some s1 else
      match s1 with
      | String c2 s2 =>
          if isspace2 c1 c2 then Some s2 else
          match s2 with
          | String c3 s3 => if isspace3 c1 c2 c3 then Some s3 else None
          | EmptyString => None
          end
      | EmptyString => None
      end
  | EmptyString => None
  end.

(** Drops the blanks at the start. *)
Fixpoint lstrip (s : string) : string :=
  match s with
  | String c1 s1 =>
      if isspace1 c1 then lstrip s1 else
      match s1 with
      | String c2 s2 =>
          if isspace2 c1 c2 then lstrip s2 else
          match s2 with
          | String c3 s3 => if isspace3 c1 c2 c3 then lstrip s3 else s
          | EmptyString => s
          end
      | EmptyString => s
      end
  | EmptyString => EmptyString
  end.

(** A text made of blanks only. *)
Definition all_blank (s : string) : bool :=
  match lstrip s with EmptyString => true | _ => false end.

(** Drops the blanks at the end: the text is cut where only blanks follow.
    (No blank starts with a continuation byte, so the cut never falls
    inside a character.) *)
Fixpoint rstrip (s : string) : string :=
  match s with
  | String c s' => if all_blank s then EmptyString else String c (rstrip s')
  | EmptyString => EmptyString
  end.

Definition strip (s : string) : string := rstrip (lstrip s).

(** Truth value of a [str]: the empty string is false. *)
Definition str_truthy (s : string) : bool :=
  match s with EmptyString => false | _ => true end.

(** ** Dates *)

(** [datetime._is_leap], [datetime._days_in_month]. *)
Definition is_leap (year : Z) : bool :=
  (year mod 4 =? 0) && (negb (year mod 100 =? 0) || (year mod 400 =? 0)).

Definition days_in_month (year month : Z) : Z :=
  if month =? 2 then (if is_leap year then 29 else 28)
  else if (month =? 4) || (month =? 6) || (month =? 9) || (month =? 11) then 30
  else 31.

(** [datetime._check_date_fields]: MINYEAR = 1, MAXYEAR = 9999. *)
Definition check_date_fields (year month day : Z) : bool :=
  (1 <=? year) && (year <=? 9999) && (1 <=? month) && (month <=? 12)
  && (1 <=? day) && (day <=? days_in_month year month).

(** A [datetime.date] object: it only exists when the check passed. *)
Record Date : Set := mkdate {
  year : Z;
  month : Z;
  day : Z;
  date_ok : Is_true (check_date_fields year month day)
}.

(** [date(year, month, day)]. *)
Definition date_new (y m d : Z) : outcome Date :=
  match decide (Is_true (check_date_fields y m d)) with
  | left ok => Return (mkdate y m d ok)
  | right _ => Raise (ValueError InvalidIsoformat)
  end.

(** Dates compare as the triples (year, month, day), lexicographically
    ([date._cmp]). *)
Definition date_le (a b : Date) : bool :=
  (year a <? year b)
  || ((year a =? year b)
      && ((month a <? month b)
          || ((month a =? month b) && (day a <=? day b)))).

(** One decimal digit and back. *)
Definition digit_char (n : Z) : ascii := ascii_of_N (Z.to_N (48 + n)).

Definition char_digit (c : ascii) : option Z :=
  let n := Z.of_N (N_of_ascii c) in
  if (48 <=? n) && (n <=? 57) then Some (n - 48) else None.

(** ["%04d-%02d-%02d" % (year, month, day)], for the values a date holds. *)
Definition isoformat (d : Date) : string :=
  let y := year d in let m := month d in let dd := day d in
  String (digit_char (y / 1000)) (String (digit_char (y / 100 mod 10))
  (String (digit_char (y / 10 mod 10)) (String (digit_char (y mod 10))
  (String "-"%char (String (digit_char (m / 10)) (String (digit_char (m mod 10))
  (String "-"%char (String (digit_char (dd / 10)) (String (digit_char (dd mod 10))
   EmptyString))))))))).

(** The reading of [YYYY-MM-DD]: exactly ten characters, digits around two
    hyphens. Every CPython release reads this form the same way. *)
Definition parse_extended (s : string) : option (Z * Z * Z) :=
  match s with
  | String y3 (String y2 (String y1 (String y0 (String h1
    (String m1 (String m0 (String h2 (String d1 (String d0 EmptyString))))))))) =>
      if Ascii.eqb h1 "-"%char && Ascii.eqb h2 "-"%char then
        match char_digit y3, char_digit y2, char_digit y1, char_digit y0,
              char_digit m1, char_digit m0, char_digit d1, char_digit d0 with
        | Some a, Some b, Some c, Some d, Some e, Some f, Some g, Some h =>
            Some (1000 * a + 100 * b + 10 * c + d, 10 * e + f, 10 * g + h)
        | _, _, _, _, _, _, _, _ => None
        end
      else None
  | _ => None
  end.

(** ** What depends on the CPython release *)

(** Two library functions the module calls changed over the releases.
    - [date.fromisoformat] reads [YYYY-MM-DD] only up to 3.10; from 3.11 on
      it also reads other texts of 7, 8 or 10 bytes (the basic format, the
      week formats). [other_isoformats] is what the interpreter makes of
      such a text: a date, or nothing, which stands for [ValueError].
    - The builtin [sum] adds floats one after the other up to 3.11, and
      carries a compensation term along from 3.12 on. *)
Class Interpreter : Type := {
  other_isoformats : string → option Date;
  compensated_sum : bool
}.

(** [date.fromisoformat]. A text of another length than 7, 8 or 10 bytes is
    refused by every release. *)
Definition fromisoformat `{!Interpreter} (s : string) : outcome Date :=
  match parse_extended s with
  | Some (y, m, d) => date_new y m d
  | None =>
      let n := String.length s in
      if ((n =? 7) || (n =? 8) || (n =? 10))%nat then
        match other_isoformats s with
        | Some d => Return d
        | None => Raise (ValueError InvalidIsoformat)
        end
      else Raise (ValueError InvalidIsoformat)
  end.

(** *** The other formats, as CPython 3.11 reads them *)

(** [days_before_year], [days_before_month], [ymd_to_ord], [weekday] and
    [iso_week1_monday] of [_datetimemodule.c]. *)
Definition days_before_year (year : Z) : Z :=
  let y := year - 1 in y * 365 + y / 4 - y / 100 + y / 400.

Definition days_before_month (year month : Z) : Z :=
  nth (Z.to_nat month) [0; 0; 31; 59; 90; 120; 151; 181; 212; 243; 273; 304; 334] 0
  + (if (2 <? month) && is_leap year then 1 else 0).

Definition ymd_to_ord (year month day : Z) : Z :=
  days_before_year year + days_before_month year month + day.

Definition weekday (year month day : Z) : Z := (ymd_to_ord year month day + 6) mod 7.

Definition iso_week1_monday (year : Z) : Z :=
  let first_day := ymd_to_ord year 1 1 in
  let first_weekday := (first_day + 6) mod 7 in
  let week1_monday := first_day - first_weekday in
  if 3 <? first_weekday then week1_monday + 7 else week1_monday.

(** [ord_to_ymd], for an ordinal of at least 1. *)
Definition ord_to_ymd (ordinal : Z) : Z * Z * Z :=
  let ordinal := ordinal - 1 in
  let n400 := ordinal / 146097 in
  let n := ordinal mod 146097 in
  let n100 := n / 36524 in
  let n := n mod 36524 in
  let n4 := n / 1461 in
  let n := n mod 1461 in
  let n1 := n / 365 in
  let n := n mod 365 in
  let year := n400 * 400 + 1 + n100 * 100 + n4 * 4 + n1 in
  if (n1 =? 4) || (n100 =? 4) then (year - 1, 12, 31)
  else
    let leapyear := (n1 =? 3) && (negb (n4 =? 24) || (n100 =? 3)) in
    let month := (n + 50) / 32 in
    let preceding := nth (Z.to_nat month)
                       [0; 0; 31; 59; 90; 120; 151; 181; 212; 243; 273; 304; 334] 0
                     + (if (2 <? month) && leapyear then 1 else 0) in
    if n <? preceding then
      (year, month - 1, n - (preceding - days_in_month year (month - 1)) + 1)
    else (year, month, n - preceding + 1).

(** [iso_to_ymd]: the year must be a year of the calendar, the week one of
    the year's 52 or 53, the day 1..7. *)
Definition iso_to_ymd (iso_year iso_week iso_day : Z) : option (Z * Z * Z) :=
  if (iso_year <? 1) || (9999 <? iso_year) then None
  else if ((iso_week <? 1) || (53 <? iso_week)
           || ((iso_week =? 53)
               && negb ((weekday iso_year 1 1 =? 3)
                        || ((weekday iso_year 1 1 =? 2) && is_leap iso_year)))) then None
  else if (iso_day <? 1) || (7 <? iso_day) then None
  else Some (ord_to_ymd (iso_week1_monday iso_year + (iso_week - 1) * 7 + iso_day - 1)).

(** [parse_digits]: exactly [n] decimal digits, added to [acc]. *)
Fixpoint parse_digits (n : nat) (acc : Z) (p : string) : option (Z * string) :=
  match n with
  | O => Some (acc, p)
  | S n' =>
      match p with
      | String c p' =>
          match char_digit c with
          | Some k => parse_digits n' (10 * acc + k) p'
          | None => None
          end
      | EmptyString => None
      end
  end.

(** Whether the text goes on with the character [c]. *)
Definition starts_with (c : ascii) (p : string) : bool :=
  match p with String c' _ => Ascii.eqb c' c | EmptyString => false end.

Definition rest (p : string) : string :=
  match p with String _ p' => p' | EmptyString => EmptyString end.

(** [parse_isoformat_date]: the year, an optional hyphen, then either [W],
    the week and an optional day, or the month and the day. What follows the
    day is not looked at. *)
Definition parse_isoformat_date (s : string) : option (Z * Z * Z) :=
  match parse_digits 4 0 s with
  | None => None
  | Some (year, p) =>
      let uses_separator := starts_with "-" p in
      let p := if uses_separator then rest p else p in
      if starts_with "W" p then
        match parse_digits 2 0 (rest p) with
        | None => None
        | Some (iso_week, p) =>
            match p with
            | EmptyString => iso_to_ymd year iso_week 1
            | _ =>
                if uses_separator && negb (starts_with "-" p) then None
                else
                  match parse_digits 1 0 (if uses_separator then rest p else p) with
                  | None => None
                  | Some (iso_day, _) => iso_to_ymd year iso_week iso_day
                  end
            end
        end
      else
        match parse_digits 2 0 p with
        | None => None
        | Some (month, p) =>
            if uses_separator && negb (starts_with "-" p) then None
            else
              match parse_digits 2 0 (if uses_separator then rest p else p) with
              | None => None
              | Some (day, _) => Some (year, month, day)
              end
        end
  end.

Definition basic_and_week_formats (s : string) : option Date :=
  match parse_isoformat_date s with
  | Some (y, m, d) =>
      match date_new y m d with
      | Return date => Some date
      | Raise _ => None
      end
  | None => None
  end.

(** Three interpreters: up to 3.10; 3.11; and 3.12, whose
    [date.fromisoformat] is the one of 3.11. *)
Definition cpython310 : Interpreter :=
  {| other_isoformats := λ _, None; compensated_sum := false |}.
Definition cpython311 : Interpreter :=
  {| other_isoformats := basic_and_week_formats; compensated_sum := false |}.
Definition cpython312 : Interpreter :=
  {| other_isoformats := basic_and_week_formats; compensated_sum := true |}.

(** ** The world outside the module *)

(** A serialised expense, as [to_dict] builds it, as [json.load] hands it to
    [from_dict]: each of the five keys is absent or bound to a value of the
    type the dataclass annotates ([id] may be bound to [None], JSON [null]);
    [d_others] lists every other key of the dict. *)
Record Dict : Type := mkDict {
  d_amount : option float;
  d_category : option string;
  d_description : option string;
  d_date : option string;
  d_id : option (option string);
  d_others : list string
}.

(** What [open] and [json.load] make of a file that exists: text that is not
    JSON, a file that cannot be opened or decoded, or an array of objects. *)
Inductive content : Type :=
  | Malformed
  | Unreadable
  | Json (items : list Dict).

Inductive level : Set := INFO | WARNING | ERROR.

(** The log lines of the module, one constructor per f-string. *)
Inductive message : Type :=
  | MsgInitialized (n : nat)
  | MsgAdded (amount : float) (category description : string)
  | MsgAddFailed (e : exn)
  | MsgUnexpected (e : exn)
  | MsgRemoved (expense_id : string)
  | MsgNotFound (expense_id : string)
  | MsgLoaded (n : nat)
  | MsgNoFile
  | MsgJsonError
  | MsgLoadError (e : exn)
  | MsgSaved
  | MsgSaveError (e : exn).

(** The file system (one entry per existing path, and the paths that cannot
    be opened for writing), the records the logger has emitted, oldest
    first, and the number of times the clock has been read. *)
Record World : Type := mkWorld {
  files : gmap string content;
  readonly : gset string;
  log : list (level * message);
  ticks : nat
}.

Definition logger (lv : level) (m : message) (w : World) : World :=
  mkWorld (files w) (readonly w) (log w ++ [(lv, m)]) (ticks w).

Definition tick (w : World) : World :=
  mkWorld (files w) (readonly w) (log w) (S (ticks w)).

(** [open(path, 'w')] followed by [json.dump]: fails on a path that cannot
    be written, otherwise replaces the file. *)
Definition write_json (path : string) (data : list Dict) (w : World)
  : outcome unit * World :=
  if decide (path ∈ readonly w) then (Raise OSError, w)
  else (Return tt, mkWorld (<[path := Json data]> (files w)) (readonly w) (log w) (ticks w)).

(** [open(path, 'r')] followed by [json.load], for a path that exists. *)
Definition read_json (c : content) : outcome (list Dict) :=
  match c with
  | Malformed => Raise JSONDecodeError
  | Unreadable => Raise OSError
  | Json items => Return items
  end.

(** A computation that reads the clock or logs, and may raise. *)
Definition M (A : Type) : Type := World → outcome A * World.

#[global] Instance M_ret : MRet M := λ A a w, (Return a, w).
#[global] Instance M_bind : MBind M := λ A B k m w,
  match m w with
  | (Return a, w') => k a w'
  | (Raise e, w') => (Raise e, w')
  end.

(** ** Expense *)

Record Expense : Type := mkExpense {
  amount : float;
  category : string;
  description : string;
  date : Date;
  id : string
}.

Section Tracker.

Context `{!Interpreter}.

(** [hash] on strings (fixed for the life of the process), the successive
    readings of the clock ([int(datetime.datetime.now().timestamp())] and
    [datetime.date.today()]), and the builtin [round(x, ndigits)]. *)
Variable hash : string → Z.
Variable clock : nat → Z.
Variable today : nat → Date.
Variable round : float → Z → float.

(** The dataclass constructor followed by [__post_init__]: nothing is
    checked; an [id] is made up when none is given. *)
Definition Expense_new (amount : float) (category description : string)
    (date : Date) (id : option string) : M Expense := λ w,
  match id with
  | Some i => (Return (mkExpense amount category description date i), w)
  | None =>
      let timestamp := clock (ticks w) in
      let i := pretty timestamp ++ "_" ++ pretty (hash description mod 10000) in
      (Return (mkExpense amount category description date i), tick w)
  end.

(** [asdict(self)] with the date replaced by its ISO string. *)
Definition to_dict (self : Expense) : Dict :=
  mkDict (Some (amount self)) (Some (category self)) (Some (description self))
         (Some (isoformat (date self))) (Some (Some (id self))) [].

(** [data['date']] is looked up and parsed first; then the constructor takes
    the dict's items as keywords, which fails on an unknown key and on a
    missing [amount], [category] or [description]; an absent [id] defaults
    to [None]. (The
    function also stores the parsed date back into the caller's dict; no
    caller in the module looks at the dict again.) *)
Definition from_dict (data : Dict) : M Expense := λ w,
  match d_date data with
  | None => (Raise (KeyError "date"), w)
  | Some s =>
      match fromisoformat s with
      | Raise e => (Raise e, w)
      | Return d =>
          match d_others data, d_amount data, d_category data, d_description data with
          | [], Some a, Some c, Some ds =>
              Expense_new a c ds d (default None (d_id data)) w
          | _, _, _, _ => (Raise TypeError, w)
          end
      end
  end.

(** ** ExpenseTracker *)

Record ExpenseTracker : Type := mkTracker {
  data_file : string;
  expenses : list Expense;
  categories : gset string
}.

(** The nine labels [__init__] starts from (食物, 交通, 娛樂, 購物, 醫療, 教育,
    房租, 水電, 其他). *)
Definition default_categories : gset string :=
  {[ "食物"; "交通"; "娛樂"; "購物"; "醫療"; "教育"; "房租"; "水電"; "其他" ]}.

(** [_save_expenses]: any exception is logged and swallowed. *)
Definition _save_expenses (self : ExpenseTracker) (w : World) : World :=
  let data := to_dict <$> expenses self in
  match write_json (data_file self) data w with
  | (Return _, w') => logger INFO MsgSaved w'
  | (Raise e, w') => logger ERROR (MsgSaveError e) w'
  end.

(** The [try] body of [_load_expenses]: [self.expenses] is assigned only once
    the whole comprehension has run. *)
Definition _load_expenses_try (self : ExpenseTracker) (w : World)
  : outcome unit * ExpenseTracker * World :=
  match files w !! data_file self with
  | Some c =>
      match read_json c with
      | Raise e => (Raise e, self, w)
      | Return data =>
          match mapM from_dict data w with
          | (Raise e, w') => (Raise e, self, w')
          | (Return l, w') =>
              (Return tt, mkTracker (data_file self) l (categories self),
               logger INFO (MsgLoaded (length l)) w')
          end
      end
  | None => (Return tt, self, logger INFO MsgNoFile w)
  end.

(** [_load_expenses]: both handlers reset the collection to the empty list. *)
Definition _load_expenses (self : ExpenseTracker) (w : World)
  : ExpenseTracker * World :=
  match _load_expenses_try self w with
  | (Return _, self', w') => (self', w')
  | (Raise JSONDecodeError, self', w') =>
      (mkTracker (data_file self') [] (categories self'), logger ERROR MsgJsonError w')
  | (Raise e, self', w') =>
      (mkTracker (data_file self') [] (categories self'), logger ERROR (MsgLoadError e) w')
  end.

(** [ExpenseTracker(data_file)]. *)
Definition ExpenseTracker_init (data_file : string) (w : World)
  : ExpenseTracker * World :=
  let self := mkTracker data_file [] default_categories in
  let '(self', w') := _load_expenses self w in
  (self', logger INFO (MsgInitialized (length (expenses self'))) w').

(** The [try] body of [add_expense]. Both checks come before the first
    mutation of [self]. *)
Definition add_expense_try (self : ExpenseTracker) (amount : float)
    (category description : string) (date : option Date) (w : World)
  : outcome bool * ExpenseTracker * World :=
  if PrimFloat.leb amount 0 then (Raise (ValueError AmountNotPositive), self, w)
  else if negb (str_truthy (strip description)) then
    (Raise (ValueError EmptyDescription), self, w)
  else
    (* [date or datetime.date.today()]: a date object is always true *)
    let '(expense_date, w1) :=
      match date with
      | Some d => (d, w)
      | None => (today (ticks w), tick w)
      end in
    let self1 := mkTracker (data_file self) (expenses self) ({[ category ]} ∪ categories self) in
    match Expense_new amount category (strip description) expense_date None w1 with
    | (Raise e, w2) => (Raise e, self1, w2)
    | (Return expense, w2) =>
        let self2 := mkTracker (data_file self1) (expenses self1 ++ [expense]) (categories self1) in
        let w3 := _save_expenses self2 w2 in
        (Return true, self2, logger INFO (MsgAdded amount category description) w3)
    end.

(** [add_expense]: a [ValueError] is logged and raised again; any other
    exception is logged and turned into [False]. *)
Definition add_expense (self : ExpenseTracker) (amount : float)
    (category description : string) (date : option Date) (w : World)
  : outcome bool * ExpenseTracker * World :=
  match add_expense_try self amount category description date w with
  | (Return b, self', w') => (Return b, self', w')
  | (Raise (ValueError why), self', w') =>
      (Raise (ValueError why), self', logger ERROR (MsgAddFailed (ValueError why)) w')
  | (Raise e, self', w') => (Return false, self', logger ERROR (MsgUnexpected e) w')
  end.

(** [remove_expense]: the comprehension keeps every expense whose id differs
    from the argument. Nothing in the [try] body can raise here, so the
    handler does not show. *)
Definition remove_expense (self : ExpenseTracker) (expense_id : string) (w : World)
  : bool * ExpenseTracker * World :=
  let original_count := length (expenses self) in
  let self1 := mkTracker (data_file self)
                 (filter (λ exp, id exp ≠ expense_id) (expenses self))
                 (categories self) in
  if (length (expenses self1) <? original_count)%nat then
    let w1 := _save_expenses self1 w in
    (true, self1, logger INFO (MsgRemoved expense_id) w1)
  else
    (false, self1, logger WARNING (MsgNotFound expense_id) w).

Definition get_expenses_by_category (self : ExpenseTracker) (category0 : string)
  : list Expense :=
  filter (λ exp, category exp = category0) (expenses self).

(** [start_date <= exp.date <= end_date] is the conjunction of the two
    comparisons. *)
Definition get_expenses_by_date_range (self : ExpenseTracker)
    (start_date end_date : Date) : list Expense :=
  filter (λ exp, date_le start_date (date exp) && date_le (date exp) end_date)
         (expenses self).

(** One turn of the loop that both statistics run: add to the entry of the
    expense's category, or create it. *)
Definition accumulate (totals : gmap string float) (expense : Expense)
  : gmap string float :=
  match totals !! category expense with
  | Some t => <[category expense := PrimFloat.add t (amount expense)]> totals
  | None => <[category expense := amount expense]> totals
  end.

Definition calculate_total_by_category (self : ExpenseTracker) : gmap string float :=
  foldl accumulate ∅ (expenses self).

(** One step of the compensated sum (Neumaier): the running sum and the
    rounding error gathered so far. *)
Definition compensated_step (acc : float * float) (x : float) : float * float :=
  let '(f_result, c) := acc in
  let t := PrimFloat.add f_result x in
  if PrimFloat.leb (PrimFloat.abs x) (PrimFloat.abs f_result)
  then (t, PrimFloat.add c (PrimFloat.add (PrimFloat.sub f_result t) x))
  else (t, PrimFloat.add c (PrimFloat.add (PrimFloat.sub x t) f_result)).

(** The builtin [sum] over floats. It starts from the integer 0, to which the
    first float is added. Up to 3.11 the others are added from left to
    right; from 3.12 on each addition also updates the compensation, which
    is added at the end unless it is zero or not finite. On no float at all
    the result is 0. *)
Definition sum (xs : list float) : float :=
  match xs with
  | [] => 0%float
  | x :: rest =>
      if compensated_sum then
        let '(f_result, c) := foldl compensated_step (PrimFloat.add 0 x, 0%float) rest in
        if negb (PrimFloat.eqb c 0) && negb (PrimFloat.is_nan c) && negb (PrimFloat.is_infinity c)
        then PrimFloat.add f_result c else f_result
      else foldl PrimFloat.add (PrimFloat.add 0 x) rest
  end.

(** [total / count] with an integer count: the count is converted first. *)
Definition float_of_nat (n : nat) : float :=
  PrimFloat.of_uint63 (Uint63.of_Z (Z.of_nat n)).

Record Summary : Type := mkSummary {
  total_amount : float;
  expense_count : nat;
  average_amount : float;
  category_summary : gmap string float
}.

Definition calculate_monthly_summary (self : ExpenseTracker) (year0 month0 : Z)
  : Summary :=
  let monthly_expenses :=
    filter (λ exp, year (date exp) = year0 ∧ month (date exp) = month0)
           (expenses self) in
  match monthly_expenses with
  | [] => mkSummary 0%float 0 0%float ∅
  | _ =>
      let total := sum (amount <$> monthly_expenses) in
      let count := length monthly_expenses in
      let average := PrimFloat.div total (float_of_nat count) in
      let categories0 := foldl accumulate ∅ monthly_expenses in
      mkSummary (round total 2) count (round average 2) categories0
  end.

(** ** A session: the calls a client makes, one after the other *)

(** The two mutating methods, as a client such as [main] calls them. *)
Inductive call : Type :=
  | CallAdd (amount : float) (category description : string) (date : option Date)
  | CallRemove (expense_id : string).

(** One call: the client goes on with the tracker whatever was returned or
    raised. *)
Definition run_call (c : call) (self : ExpenseTracker) (w : World)
  : ExpenseTracker * World :=
  match c with
  | CallAdd amount category description date =>
      let '(_, self', w') := add_expense self amount category description date w in
      (self', w')
  | CallRemove expense_id =>
      let '(_, self', w') := remove_expense self expense_id w in
      (self', w')
  end.

Definition run_calls (cs : list call) (self : ExpenseTracker) (w : World)
  : ExpenseTracker * World :=
  foldl (λ st c, run_call c st.1 st.2) (self, w) cs.

End Tracker.

(** ** The builtin [round], for running the examples *)

(** [n / d] rounded to the nearest integer, ties to the even one. *)
Definition div_half_even (n d : Z) : Z :=
  let q := n / d in
  let r := n mod d in
  match 2 * r ?= d with
  | Lt => q
  | Gt => q + 1
  | Eq => if Z.even q then q else q + 1
  end.

(** [round(x, ndigits)] for [ndigits >= 0]: the exact value of [x] is
    rounded half-to-even to [ndigits] decimals, and the float nearest to that
    decimal is returned; zeros, infinities and NaN come back unchanged. *)
Definition py_round (x : float) (ndigits : Z) : float :=
  match Prim2SF x with
  | S754_finite s m e =>
      let scale := 10 ^ ndigits in
      let n := if 0 <=? e then Z.pos m * 2 ^ e * scale
               else div_half_even (Z.pos m * scale) (2 ^ (- e)) in
      match n with
      | Z.pos p =>
          SF2Prim (SFdiv prec emax (S754_finite s p 0)
                         (S754_finite false (Z.to_pos scale) 0))
      | _ => if s then neg_zero else zero
      end
  | _ => x
  end.

(** ** Calendar order in the specification's words *)

(** A date as the number YYYYMMDD: earlier dates have smaller numbers. *)
Definition date_key (d : Date) : Z := 10000 * year d + 100 * month d + day d.

(** ** The monthly summary in the specification's words *)

(** The amounts added one after the other to what has been added so far. *)
Fixpoint add_up (so_far : float) (amounts : list float) : float :=
  match amounts with
  | [] => so_far
  | a :: amounts' => add_up (PrimFloat.add so_far a) amounts'
  end.

(** The same with the rounding error of each addition kept aside: the error
    is what the smaller of the two operands lost. It is added at the end,
    unless it is zero, infinite or not a number. *)
Fixpoint add_up_compensated (so_far error : float) (amounts : list float) : float :=
  match amounts with
  | [] =>
      if PrimFloat.eqb error 0 || PrimFloat.is_nan error || PrimFloat.is_infinity error
      then so_far else PrimFloat.add so_far error
  | a :: amounts' =>
      let t := PrimFloat.add so_far a in
      let lost :=
        if PrimFloat.leb (PrimFloat.abs a) (PrimFloat.abs so_far)
        then PrimFloat.add (PrimFloat.sub so_far t) a
        else PrimFloat.add (PrimFloat.sub a t) so_far in
      add_up_compensated t (PrimFloat.add error lost) amounts'
  end.

(** The total of a list of amounts, as the interpreter at hand adds them. *)
Definition total_of `{!Interpreter} (amounts : list float) : float :=
  match amounts with
  | [] => 0%float
  | first :: others =>
      if compensated_sum
      then add_up_compensated (PrimFloat.add 0 first) 0 others
      else add_up (PrimFloat.add 0 first) others
  end.

(** The sub-total of one category over a list of expenses: absent when no
    expense has the category, otherwise the amounts of those that have it,
    added from left to right starting from the first. *)
Definition subtotal (c : string) (l : list Expense) : option float :=
  match amount <$> filter (λ exp, category exp = c) l with
  | [] => None
  | a :: rest => Some (foldl PrimFloat.add a rest)
  end.

(** ** What a session keeps true *)

(** A dict that [from_dict] can read: a valid date string, the three
    required keys, and no key the dataclass does not know. *)
Definition readable `{!Interpreter} (item : Dict) : Prop :=
  ∃ s d, d_date item = Some s ∧ fromisoformat s = Return d
         ∧ is_Some (d_amount item) ∧ is_Some (d_category item)
         ∧ is_Some (d_description item) ∧ d_others item = [].

(** The expense that a readable dict stands for: the fields of the dict,
    and its id when it has one. *)
Definition stands_for `{!Interpreter} (item : Dict) (expense : Expense) : Prop :=
  d_amount item = Some (amount expense)
  ∧ d_category item = Some (category expense)
  ∧ d_description item = Some (description expense)
  ∧ (∃ s, d_date item = Some s ∧ fromisoformat s = Return (date expense))
  ∧ (∀ i, d_id item = Some (Some i) → id expense = i).

(** What [add_expense] lets through: the comparison [amount <= 0] is false,
    and the description is not empty and carries no blank at either end. *)
Definition accepted (expense : Expense) : Prop :=
  PrimFloat.leb (amount expense) 0 = false
  ∧ description expense ≠ ""
  ∧ strip (description expense) = description expense.

(** The backing file and the collection agree: the file holds the
    serialised collection, or there is no file and nothing to hold. *)
Definition in_step (self : ExpenseTracker) (w : World) : Prop :=
  files w !! data_file self = Some (Json (to_dict <$> expenses self))
  ∨ (files w !! data_file self = None ∧ expenses self = []).

(** ** The demonstration script (src/test.py) *)

(** [complex_function_with_many_branches], with the module's
    [global_counter] passed in and handed back. *)
Definition complex_function_with_many_branches
    (input_value : Z) (flag1 flag2 flag3 : bool) (global_counter : Z) : string * Z :=
  if 0 <? input_value then
    if flag1 then
      if flag2 then
        if flag3 then
          let global_counter := global_counter + 1 in
          if 100 <? input_value then ("Very high value", global_counter)
          else ("High value", global_counter)
        else ("Medium value", global_counter)
      else ("Low value", global_counter)
    else ("Negative flag", global_counter)
  else ("Non-positive value", global_counter).

(** The calls that reach the innermost branch: a positive value and the
    three flags set. *)
Definition all_set (args : Z * bool * bool * bool) : bool :=
  let '(input_value, flag1, flag2, flag3) := args in
  (0 <? input_value) && flag1 && flag2 && flag3.

(** A run of calls: the results in order, and the counter at the end. *)
Fixpoint complex_function_calls (args : list (Z * bool * bool * bool)) (global_counter : Z)
  : list string * Z :=
  match args with
  | [] => ([], global_counter)
  | (input_value, flag1, flag2, flag3) :: rest =>
      let '(r, global_counter) :=
        complex_function_with_many_branches input_value flag1 flag2 flag3 global_counter in
      let '(rs, global_counter) := complex_function_calls rest global_counter in
      (r :: rs, global_counter)
  end.

(** ** Concrete data for the examples *)

(** The examples run on the latest of the three interpreters. *)
#[local] Existing Instance cpython312.

Definition empty_world : World := mkWorld ∅ ∅ [] 0.
Definition june15 : Date := mkdate 2024 6 15 I.
Definition hash0 (s : string) : Z := 123456.
Definition clock0 (n : nat) : Z := 1700000000.
Definition today0 (n : nat) : Date := june15.
Definition fresh_tracker : ExpenseTracker :=
  fst (ExpenseTracker_init hash0 clock0 "expenses.json" empty_world).

(** Two calls of [add_expense] with the same description within one second
    of the clock: both expenses get the id ["1700000000_3456"]. *)
Definition after_two_adds : ExpenseTracker * World :=
  let '(_, t1, w1) :=
    add_expense hash0 clock0 today0 fresh_tracker 50 "food" "lunch" None empty_world in
  let '(_, t2, w2) := add_expense hash0 clock0 today0 t1 30 "food" "lunch" None w1 in
  (t2, w2).

(** The collection of [test_calculate_monthly_summary]. *)
Definition may15 : Date := mkdate 2024 5 15 I.
Definition june1 : Date := mkdate 2024 6 1 I.
Definition june30 : Date := mkdate 2024 6 30 I.
Definition locked_world : World := mkWorld ∅ {[ "expenses.json" ]} [] 0.

(** A file with two objects: one as [to_dict] writes it, and one with a
    zero amount, a blank description and no id. *)
Definition two_objects : list Dict :=
  [ mkDict (Some 100%float) (Some "food") (Some "restaurant") (Some "2024-06-15")
      (Some (Some "a")) [];
    mkDict (Some 0%float) (Some "misc") (Some " ") (Some "2024-05-15") None [] ].
Definition world_with_file : World :=
  mkWorld {[ "expenses.json" := Json two_objects ]} ∅ [] 0.

(** A short session: an addition, a rejected addition, a removal that finds
    nothing, and another addition. *)
Definition some_calls : list call :=
  [ CallAdd 50 "food" " lunch " None;
    CallAdd (-1) "food" "refund" None;
    CallRemove "no such id";
    CallAdd 12.5 "books" "novel" (Some may15) ].
Definition june_tracker : ExpenseTracker :=
  mkTracker "expenses.json"
    [ mkExpense 100 "food" "restaurant" june15 "a";
      mkExpense 200 "shopping" "clothes" june15 "b";
      mkExpense 80 "food" "market" june15 "c";
      mkExpense 50 "food" "other month" may15 "d" ]
    default_categories.

(** * Properties *)

(** ** Floats: what [amount <= 0] and [amount > 0] decide *)

Lemma positive_not_leb_zero (x : float) :
  PrimFloat.ltb 0 x = true → PrimFloat.leb x 0 = false.
Proof.
  rewrite FloatAxioms.ltb_spec, FloatAxioms.leb_spec.
  change (Prim2SF 0) with (S754_zero false).
  unfold SFltb, SFleb.
  destruct (Prim2SF x) as [s| s | |s m e]; simpl; try discriminate;
    destruct s; simpl; congruence.
Qed.

(** ** Strings *)

Lemma str_truthy_false (s : string) : str_truthy s = false ↔ s = "".
Proof. destruct s; simpl; split; congruence. Qed.

(** ** Dates: the ISO string reads back *)

Lemma char_digit_digit_char (k : Z) :
  0 ≤ k ≤ 9 → char_digit (digit_char k) = Some k.
Proof.
  intros Hk.
  assert (k = 0 ∨ k = 1 ∨ k = 2 ∨ k = 3 ∨ k = 4 ∨ k = 5 ∨ k = 6 ∨ k = 7
          ∨ k = 8 ∨ k = 9) as Hcases by lia.
  repeat (destruct Hcases as [->|Hcases]; [reflexivity|]).
  subst k. reflexivity.
Qed.

Lemma four_digits (y : Z) :
  1000 * (y / 1000) + 100 * (y / 100 mod 10) + 10 * (y / 10 mod 10) + y mod 10 = y.
Proof.
  replace (y / 1000) with (y / 10 / 10 / 10) by (rewrite !Z.div_div by lia; reflexivity).
  replace (y / 100) with (y / 10 / 10) by (rewrite !Z.div_div by lia; reflexivity).
  pose proof (Z.div_mod y 10 ltac:(lia)).
  pose proof (Z.div_mod (y / 10) 10 ltac:(lia)).
  pose proof (Z.div_mod (y / 10 / 10) 10 ltac:(lia)).
  lia.
Qed.

Lemma days_in_month_le (y m : Z) : days_in_month y m ≤ 31.
Proof. unfold days_in_month. repeat case_match; lia. Qed.

Lemma check_date_fields_bounds (y m d : Z) :
  Is_true (check_date_fields y m d) →
  1 ≤ y ≤ 9999 ∧ 1 ≤ m ≤ 12 ∧ 1 ≤ d ≤ 31.
Proof.
  unfold check_date_fields. rewrite !andb_True, !Is_true_true, !Z.leb_le.
  pose proof (days_in_month_le y m). lia.
Qed.

Lemma date_new_checked (y m d : Z) (ok : Is_true (check_date_fields y m d)) :
  date_new y m d = Return (mkdate y m d ok).
Proof.
  unfold date_new. destruct (decide _) as [ok'|]; [|contradiction].
  f_equal. f_equal. apply proof_irrel.
Qed.

Lemma fromisoformat_isoformat `{!Interpreter} (d : Date) :
  fromisoformat (isoformat d) = Return d.
Proof.
  destruct d as [y m dd ok].
  destruct (check_date_fields_bounds _ _ _ ok) as (Hy & Hm & Hd).
  unfold isoformat, fromisoformat, parse_extended. cbn [year month day].
  change (Ascii.eqb "-" "-") with true. cbn [andb].
  assert (∀ n, 0 ≤ n `mod` 10 ≤ 9) as Hmod
    by (intros n; pose proof (Z.mod_pos_bound n 10); lia).
  assert (∀ n k, 0 < k → 0 ≤ n < 10 * k → 0 ≤ n / k ≤ 9) as Hdiv.
  { intros n k Hk Hn. split; [apply Z.div_pos; lia|].
    apply Z.lt_succ_r, Z.div_lt_upper_bound; lia. }
  rewrite !char_digit_digit_char by first [apply Hmod | apply Hdiv; lia].
  rewrite four_digits, <- !Z.div_mod by lia.
  apply date_new_checked.
Qed.

(** ** Dates: the order *)

Lemma date_le_refl (d : Date) : date_le d d = true.
Proof.
  unfold date_le. rewrite !Z.eqb_refl, Z.leb_refl. cbn.
  by rewrite !orb_true_r.
Qed.

(** The comparison of the triples is the calendar order. *)
Lemma date_le_calendar (a b : Date) : date_le a b = true ↔ date_key a ≤ date_key b.
Proof.
  destruct a as [ya ma da oka], b as [yb mb db okb].
  pose proof (check_date_fields_bounds _ _ _ oka).
  pose proof (check_date_fields_bounds _ _ _ okb).
  unfold date_le, date_key. cbn [year month day].
  repeat (rewrite orb_true_iff || rewrite andb_true_iff).
  rewrite !Z.ltb_lt, !Z.eqb_eq, Z.leb_le.
  lia.
Qed.

(** Only a text of ten bytes has the form [YYYY-MM-DD]. *)
Lemma parse_extended_length (s : string) (ymd : Z * Z * Z) :
  parse_extended s = Some ymd → String.length s = 10%nat.
Proof.
  destruct s as [|? [|? [|? [|? [|? [|? [|? [|? [|? [|? [|? ?]]]]]]]]]]]; done.
Qed.

(** What every interpreter refuses: a text of another length than 7, 8 or
    10, and a [YYYY-MM-DD] text that names no day of the calendar. *)
Lemma fromisoformat_refuses `{!Interpreter} (s : string) :
  (String.length s ≠ 7 ∧ String.length s ≠ 8 ∧ String.length s ≠ 10)%nat
  ∨ (∃ y m d, parse_extended s = Some (y, m, d) ∧ check_date_fields y m d = false) →
  fromisoformat s = Raise (ValueError InvalidIsoformat).
Proof.
  unfold fromisoformat. intros [(H7 & H8 & H10)|(y & m & d & -> & Hcheck)].
  - destruct (parse_extended s) as [[[y m] d]|] eqn:Hparse.
    + apply parse_extended_length in Hparse. done.
    + apply Nat.eqb_neq in H7, H8, H10. by rewrite H7, H8, H10.
  - unfold date_new. destruct (decide _) as [ok|]; [|done].
    exfalso. by rewrite Hcheck in ok.
Qed.

(** Every exception of [fromisoformat] is the same [ValueError]. *)
Lemma fromisoformat_raises `{!Interpreter} (s : string) (e : exn) :
  fromisoformat s = Raise e → e = ValueError InvalidIsoformat.
Proof.
  unfold fromisoformat, date_new.
  repeat case_match; congruence.
Qed.

(** ** Lists: comprehensions with a condition *)

Lemma length_filter_split {A} (P : A → Prop) `{!∀ x, Decision (P x)} (l : list A) :
  length l = (length (filter (λ x, ¬ P x) l) + length (filter P l))%nat.
Proof.
  induction l as [|x l IH]; [done|].
  rewrite !filter_cons.
  destruct (decide (P x)), (decide (¬ P x)); simpl; try tauto; lia.
Qed.

Lemma filter_all {A} (P : A → Prop) `{!∀ x, Decision (P x)} (l : list A) :
  (∀ x, x ∈ l → P x) → filter P l = l.
Proof.
  induction l as [|x l IH]; intros Hall; [done|].
  rewrite filter_cons_True by (apply Hall; left).
  f_equal. apply IH. intros y Hy. apply Hall. by right.
Qed.

Lemma filter_none {A} (P : A → Prop) `{!∀ x, Decision (P x)} (l : list A) :
  (∀ x, x ∈ l → ¬ P x) → filter P l = [].
Proof.
  induction l as [|x l IH]; intros Hnone; [done|].
  rewrite filter_cons_False by (apply Hnone; left).
  apply IH. intros y Hy. apply Hnone. by right.
Qed.

Lemma filter_unique_key {A K} (key : A → K) `{!EqDecision K} (k : K) (l : list A) :
  NoDup (key <$> l) → (length (filter (λ x, key x = k) l) ≤ 1)%nat.
Proof.
  induction l as [|x l IH]; simpl; intros Hnd; [lia|].
  apply NoDup_cons in Hnd as [Hx Hnd].
  rewrite filter_cons. destruct (decide (key x = k)) as [<-|]; [|by apply IH].
  rewrite filter_none; [simpl; lia|].
  intros y Hy Heq. apply Hx. rewrite <- Heq. by apply list_elem_of_fmap_2.
Qed.

(** ** Removal *)

(** Closes a case where the comprehension got shorter although no expense
    carries the id. *)
Ltac found_but_none_matches Hfound :=
  destruct Hfound as [(? & ? & ?) _]; [done|]; naive_solver.

(** C4, as the code has it. [remove_expense] keeps, in order, exactly the
    expenses whose id differs from the argument: every expense with that id
    goes, however many there are, so the collection shrinks by the number of
    expenses that carry the id. The result is [True] exactly when some
    expense carried it. When ids are pairwise distinct and one matches, the
    collection shrinks by exactly one. When none matches, the result is
    [False], the tracker is the one given and no file is written. *)
Theorem remove_expense_drops_every_match
    (self : ExpenseTracker) (expense_id : string) (w : World) :
  ∃ found self' w',
    remove_expense self expense_id w = (found, self', w')
    ∧ expenses self' = filter (λ exp, id exp ≠ expense_id) (expenses self)
    ∧ length (expenses self)
      = (length (expenses self')
         + length (filter (λ exp, id exp = expense_id) (expenses self)))%nat
    ∧ (found = true ↔ ∃ exp, exp ∈ expenses self ∧ id exp = expense_id)
    ∧ (NoDup (id <$> expenses self) → found = true →
       length (expenses self) = S (length (expenses self')))
    ∧ ((∀ exp, exp ∈ expenses self → id exp ≠ expense_id) →
       found = false ∧ self' = self ∧ files w' = files w).
Proof.
  unfold remove_expense. cbn [expenses].
  pose proof (length_filter_split (λ exp, id exp = expense_id) (expenses self)) as Hsplit.
  set (kept := filter (λ exp, id exp ≠ expense_id) (expenses self)) in *.
  set (gone := filter (λ exp, id exp = expense_id) (expenses self)) in *.
  assert ((length kept <? length (expenses self))%nat = true
          ↔ ∃ exp, exp ∈ expenses self ∧ id exp = expense_id) as Hfound.
  { rewrite Nat.ltb_lt. split.
    - intros Hlt. destruct gone as [|exp gone'] eqn:Hgone; [simpl in Hsplit; lia|].
      exists exp. assert (exp ∈ gone) as Hin by (rewrite Hgone; left).
      apply list_elem_of_filter in Hin as [? ?]. done.
    - intros (exp & Hin & Hid). apply (length_filter_lt _ _ exp); [done|]. by intros []. }
  assert ((∀ exp, exp ∈ expenses self → id exp ≠ expense_id) → kept = expenses self)
    as Hnone by apply filter_all.
  destruct (length kept <? length (expenses self))%nat eqn:Hlt;
    eexists _, _, _; (split; [reflexivity|]); cbn [expenses];
    repeat split; try done; try tauto.
  - intros Hnd _. pose proof (filter_unique_key id expense_id _ Hnd) as Hle.
    fold gone in Hle. apply Nat.ltb_lt in Hlt. lia.
  - found_but_none_matches Hfound.
  - found_but_none_matches Hfound.
  - found_but_none_matches Hfound.
  - rewrite Hnone by done. by destruct self.
Qed.

Section TrackerProperties.

Context `{!Interpreter}.

Variable hash : string → Z.
Variable clock : nat → Z.
Variable today : nat → Date.

(** ** Construction never fails *)

Lemma Expense_new_returns amount0 category0 description0 date0 id0 w :
  ∃ i w',
    Expense_new hash clock amount0 category0 description0 date0 id0 w
      = (Return (mkExpense amount0 category0 description0 date0 i), w')
    ∧ (∀ given, id0 = Some given → i = given ∧ w' = w)
    ∧ (id0 = None → w' = tick w).
Proof.
  destruct id0 as [given|]; simpl; eexists _, _; split; try reflexivity.
  - split; [intros ? [= <-]; done | discriminate].
  - split; [discriminate | done].
Qed.

(** C1. Whenever the amount is not above zero, or the description is empty
    once stripped (it holds nothing but characters [str.isspace] is true
    of, U+3000 and the other blanks beyond ASCII included), [add_expense]
    raises [ValueError] to its caller; the
    tracker it leaves behind is the tracker it was given (same expenses, same
    length, same categories), no file is touched, and the only trace is one
    error record in the log. *)
Theorem add_expense_invalid_raises
    (self : ExpenseTracker) (amount0 : float) (category0 description0 : string)
    (date0 : option Date) (w : World) :
  PrimFloat.leb amount0 0 = true ∨ strip description0 = "" →
  ∃ why self' w',
    add_expense hash clock today self amount0 category0 description0 date0 w
      = (Raise (ValueError why), self', w')
    ∧ self' = self
    ∧ expenses self' = expenses self
    ∧ length (expenses self') = length (expenses self)
    ∧ files w' = files w
    ∧ log w' = (log w ++ [(ERROR, MsgAddFailed (ValueError why))])%list.
Proof.
  intros Hbad. unfold add_expense, add_expense_try.
  destruct (PrimFloat.leb amount0 0) eqn:Hle.
  - exists AmountNotPositive, self, (logger ERROR (MsgAddFailed (ValueError AmountNotPositive)) w).
    repeat split.
  - destruct Hbad as [Hbad|Hbad]; [discriminate|].
    rewrite Hbad. simpl.
    exists EmptyDescription, self, (logger ERROR (MsgAddFailed (ValueError EmptyDescription)) w).
    repeat split.
Qed.

(** C2, as the code has it. Building an [Expense] directly checks nothing:
    for every amount (zero and negative ones included) and every description
    (empty ones included) the constructor returns the record holding exactly
    the values it was given, with the supplied id or a generated one. The
    checks on amount and description are those of [add_expense] alone. *)
Theorem Expense_new_never_validates
    (amount0 : float) (category0 description0 : string) (date0 : Date)
    (id0 : option string) (w : World) :
  ∃ expense w',
    Expense_new hash clock amount0 category0 description0 date0 id0 w
      = (Return expense, w')
    ∧ amount expense = amount0
    ∧ category expense = category0
    ∧ description expense = description0
    ∧ date expense = date0
    ∧ id expense = match id0 with
                   | Some given => given
                   | None => pretty (clock (ticks w)) ++ "_"
                             ++ pretty (hash description0 mod 10000)
                   end.
Proof.
  destruct id0 as [given|]; simpl; eexists _, _; repeat split.
Qed.

(** C3, as the code has it. For an amount above zero and a description that
    is not empty once stripped, [add_expense] returns [True] and appends
    exactly one expense at the end of the collection, leaving the earlier
    ones in place. The new expense carries the amount, the category and the
    date as passed (today's date when none was passed); its description is
    the stripped one, whole characters at both ends whatever their script.
    The category is registered, a read by that category
    returns the earlier matches followed by the new expense, and when the
    backing file can be written it holds the serialised new collection. *)
Theorem add_expense_valid_appends
    (self : ExpenseTracker) (amount0 : float) (category0 description0 : string)
    (date0 : option Date) (w : World) :
  PrimFloat.ltb 0 amount0 = true →
  strip description0 ≠ "" →
  ∃ expense self' w',
    add_expense hash clock today self amount0 category0 description0 date0 w
      = (Return true, self', w')
    ∧ expenses self' = (expenses self ++ [expense])%list
    ∧ length (expenses self') = S (length (expenses self))
    ∧ amount expense = amount0
    ∧ category expense = category0
    ∧ description expense = strip description0
    ∧ date expense = match date0 with
                     | Some d => d
                     | None => today (ticks w)
                     end
    ∧ category0 ∈ categories self'
    ∧ get_expenses_by_category self' category0
      = (get_expenses_by_category self category0 ++ [expense])%list
    ∧ (data_file self ∉ readonly w →
       files w' !! data_file self = Some (Json (to_dict <$> expenses self'))).
Proof.
  intros Hpos Hdesc. unfold add_expense, add_expense_try.
  rewrite (positive_not_leb_zero _ Hpos).
  destruct (str_truthy (strip description0)) eqn:Htruthy; simpl;
    [|apply str_truthy_false in Htruthy; contradiction].
  destruct date0 as [d|]; simpl;
    (eexists _, _, _; split; [reflexivity|]; simpl;
     repeat split;
     [ rewrite length_app; simpl; lia
     | set_solver
     | unfold get_expenses_by_category; cbn [expenses];
       by rewrite filter_app, filter_cons_True
     | intros Hrw; unfold _save_expenses, write_json; simpl;
       rewrite decide_False by done; simpl; apply lookup_insert_eq ]).
Qed.

(** ** Serialisation *)

Lemma from_dict_to_dict_id (expense : Expense) (w : World) :
  from_dict hash clock (to_dict expense) w = (Return expense, w).
Proof.
  destruct expense as [a c ds d i]. unfold from_dict, to_dict.
  cbn [d_date d_others d_amount d_category d_description d_id
       amount category description date id].
  by rewrite fromisoformat_isoformat.
Qed.

(** C5. Reading back what [to_dict] wrote gives the expense it was written
    from: [from_dict] returns, and the expense it returns has the same
    amount, category, description, date and id. *)
Theorem from_dict_to_dict_roundtrip (expense : Expense) (w : World) :
  ∃ expense',
    from_dict hash clock (to_dict expense) w = (Return expense', w)
    ∧ amount expense' = amount expense
    ∧ category expense' = category expense
    ∧ description expense' = description expense
    ∧ date expense' = date expense
    ∧ id expense' = id expense.
Proof.
  exists expense. by rewrite from_dict_to_dict_id.
Qed.

Lemma mapM_from_dict_to_dict (l : list Expense) (w : World) :
  mapM (from_dict hash clock) (to_dict <$> l) w = (Return l, w).
Proof.
  induction l as [|expense l IH]; [done|].
  cbn [fmap list_fmap mapM]. unfold mbind, M_bind at 1.
  rewrite from_dict_to_dict_id.
  unfold mbind, M_bind at 1. fold (@mapM M _ _ _ _ (from_dict hash clock)).
  change (list_fmap _ _ to_dict l) with (to_dict <$> l).
  by rewrite IH.
Qed.
(** ** Loading *)

Lemma mapM_from_dict_length (items : list Dict) (l : list Expense) (w w' : World) :
  mapM (from_dict hash clock) items w = (Return l, w') → length l = length items.
Proof.
  revert l w w'. induction items as [|item items IH]; intros l w w'.
  - intros [= <- _]. done.
  - cbn [mapM]. unfold mbind, M_bind at 1.
    destruct (from_dict hash clock item w) as [[expense|e] w1]; [|done].
    unfold mbind, M_bind at 1. fold (@mapM M _ _ _ _ (from_dict hash clock)).
    destruct (mapM (from_dict hash clock) items w1) as [[l'|e] w2] eqn:Hrest; [|done].
    intros [= <- _]. simpl. f_equal. by eapply IH.
Qed.

Lemma mapM_from_dict_raises (items : list Dict) (item : Dict) (w : World) :
  item ∈ items →
  (∀ w0, ∃ e, from_dict hash clock item w0 = (Raise e, w0)) →
  ∃ e w', mapM (from_dict hash clock) items w = (Raise e, w').
Proof.
  intros Hin Hbad. revert w.
  induction items as [|x items IH]; intros w; [by apply elem_of_nil in Hin|].
  cbn [mapM]. unfold mbind, M_bind at 1.
  destruct (from_dict hash clock x w) as [[expense|e] w1] eqn:Hx; [|eauto].
  apply elem_of_cons in Hin as [->|Hin].
  - destruct (Hbad w) as [e He]. congruence.
  - unfold mbind, M_bind at 1. fold (@mapM M _ _ _ _ (from_dict hash clock)).
    destruct (IH Hin w1) as (e & w' & ->). eauto.
Qed.

(** The collection [_load_expenses] leaves behind, case by case. *)
Lemma _load_expenses_cases (self : ExpenseTracker) (w : World) :
  ∃ self' w',
    _load_expenses hash clock self w = (self', w')
    ∧ data_file self' = data_file self
    ∧ categories self' = categories self
    ∧ match files w !! data_file self with
      | None => expenses self' = expenses self
      | Some Malformed => expenses self' = [] ∧ (ERROR, MsgJsonError) ∈ log w'
      | Some Unreadable => expenses self' = [] ∧ (ERROR, MsgLoadError OSError) ∈ log w'
      | Some (Json items) =>
          match mapM (from_dict hash clock) items w with
          | (Return l, _) => expenses self' = l
          | (Raise e, _) => expenses self' = []
          end
      end.
Proof.
  unfold _load_expenses, _load_expenses_try.
  destruct (files w !! data_file self) as [[| |items]|]; cbn.
  - eexists _, _. repeat split. set_solver.
  - eexists _, _. repeat split. set_solver.
  - destruct (mapM (from_dict hash clock) items w) as [[l|e] w1].
    + eexists _, _. by repeat split.
    + destruct e; eexists _, _; by repeat split.
  - eexists _, _. by repeat split.
Qed.

(** C6. Once [_save_expenses] has written the backing file, a new tracker
    built on the same path holds the same expenses in the same order: the
    two lists are equal, hence of equal length and with equal ids. *)
Theorem save_then_reload (self : ExpenseTracker) (w : World) :
  data_file self ∉ readonly w →
  ∃ self' w',
    ExpenseTracker_init hash clock (data_file self) (_save_expenses self w) = (self', w')
    ∧ data_file self' = data_file self
    ∧ expenses self' = expenses self
    ∧ length (expenses self') = length (expenses self)
    ∧ id <$> expenses self' = id <$> expenses self.
Proof.
  intros Hrw. unfold ExpenseTracker_init.
  set (blank := mkTracker (data_file self) [] default_categories).
  set (w1 := _save_expenses self w).
  destruct (_load_expenses_cases blank w1) as (self' & w' & -> & Hfile & _ & Hcases).
  assert (files w1 !! data_file blank = Some (Json (to_dict <$> expenses self))) as Hsaved.
  { unfold w1, _save_expenses, write_json. rewrite decide_False by done.
    cbn. apply lookup_insert_eq. }
  rewrite Hsaved, mapM_from_dict_to_dict in Hcases.
  eexists _, _. split; [reflexivity|]. by rewrite Hcases.
Qed.

(** C8. Building a tracker always returns one. It starts from the empty
    collection when the backing file is absent and when its text is not JSON
    (the failure is logged as an error). A file whose array holds an object
    that cannot be deserialised is dropped as a whole: the collection is
    either empty or has one expense per object of the file, never a part. *)
Theorem init_fails_open (path : string) (w : World) :
  ∃ self w',
    ExpenseTracker_init hash clock path w = (self, w')
    ∧ data_file self = path
    ∧ (files w !! path = None → expenses self = [])
    ∧ (files w !! path = Some Malformed →
       expenses self = [] ∧ (ERROR, MsgJsonError) ∈ log w')
    ∧ (∀ items, files w !! path = Some (Json items) →
       (expenses self = [] ∨ length (expenses self) = length items)
       ∧ (∀ item, item ∈ items →
          (∀ w0, ∃ e, from_dict hash clock item w0 = (Raise e, w0)) →
          expenses self = [])).
Proof.
  unfold ExpenseTracker_init.
  set (blank := mkTracker path [] default_categories).
  destruct (_load_expenses_cases blank w) as (self & w' & -> & Hfile & _ & Hcases).
  change (data_file blank) with path in Hcases, Hfile.
  eexists _, _. split; [reflexivity|]. split; [done|].
  split; [|split].
  - intros Hnone. by rewrite Hnone in Hcases.
  - intros Hbad. rewrite Hbad in Hcases. destruct Hcases as [-> Hlog].
    split; [done|]. cbn. set_solver.
  - intros items Hitems. rewrite Hitems in Hcases. split.
    + destruct (mapM (from_dict hash clock) items w) as [[l|e] w1] eqn:Hall; [|by left].
      right. rewrite Hcases. by eapply mapM_from_dict_length.
    + intros item Hin Hbad.
      destruct (mapM_from_dict_raises items item w Hin Hbad) as (e & w1 & Hraise).
      by rewrite Hraise in Hcases.
Qed.

(** C9, as the code has it. [from_dict] looks the date up first and raises
    [KeyError] when the key is missing; a date string that
    [date.fromisoformat] refuses raises [ValueError], which on every
    interpreter includes the strings of another length than 7, 8 or 10 and
    the [YYYY-MM-DD] strings that name no day of the calendar; with a valid
    date, a missing amount, category or description (or a key the dataclass
    does not know) raises [TypeError]. Otherwise it returns the expense with
    the amount and the description of the dict, whatever they are: nothing is
    checked. *)
Theorem from_dict_failures (data : Dict) (w : World) :
  (d_date data = None → from_dict hash clock data w = (Raise (KeyError "date"), w))
  ∧ (∀ s e, d_date data = Some s → fromisoformat s = Raise e →
     from_dict hash clock data w = (Raise (ValueError InvalidIsoformat), w))
  ∧ (∀ s, d_date data = Some s →
     (String.length s ≠ 7 ∧ String.length s ≠ 8 ∧ String.length s ≠ 10)%nat
     ∨ (∃ y m d, parse_extended s = Some (y, m, d) ∧ check_date_fields y m d = false) →
     from_dict hash clock data w = (Raise (ValueError InvalidIsoformat), w))
  ∧ (∀ s d, d_date data = Some s → fromisoformat s = Return d →
     d_amount data = None ∨ d_category data = None ∨ d_description data = None
     ∨ d_others data ≠ [] →
     from_dict hash clock data w = (Raise TypeError, w))
  ∧ (∀ s d a c ds, d_date data = Some s → fromisoformat s = Return d →
     d_amount data = Some a → d_category data = Some c →
     d_description data = Some ds → d_others data = [] →
     ∃ expense w',
       from_dict hash clock data w = (Return expense, w')
       ∧ amount expense = a ∧ category expense = c
       ∧ description expense = ds ∧ date expense = d).
Proof.
  unfold from_dict. repeat split.
  - by intros ->.
  - intros s e -> Hiso. rewrite Hiso. by rewrite (fromisoformat_raises _ _ Hiso).
  - intros s -> Hbad. by rewrite (fromisoformat_refuses s Hbad).
  - intros s d -> -> Hmissing.
    destruct (d_others data), (d_amount data), (d_category data), (d_description data);
      try reflexivity.
    by destruct Hmissing as [?|[?|[?|?]]].
  - intros s d a c ds -> -> -> -> -> ->.
    destruct (Expense_new_returns a c ds d (default None (d_id data)) w)
      as (i & w' & -> & _).
    by eexists _, _.
Qed.

(** ** Queries *)

(** C10. [get_expenses_by_date_range] returns the expenses whose date lies
    between the two bounds, both included, and no other; it keeps them in
    the order of the collection, each as often as the collection has it. An
    expense dated exactly on the start or on the end bound is returned. *)
Theorem date_range_inclusive (self : ExpenseTracker) (start_date end_date : Date) :
  let result := get_expenses_by_date_range self start_date end_date in
  (∀ exp, exp ∈ result ↔
     exp ∈ expenses self
     ∧ date_le start_date (date exp) = true ∧ date_le (date exp) end_date = true)
  ∧ (∀ exp, exp ∈ result ↔
     exp ∈ expenses self
     ∧ date_key start_date ≤ date_key (date exp) ≤ date_key end_date)
  ∧ sublist result (expenses self)
  ∧ (length (expenses self)
     = length (filter (λ exp, ¬ (date_le start_date (date exp)
                                  && date_le (date exp) end_date)) (expenses self))
       + length result)%nat
  ∧ (∀ exp, exp ∈ expenses self → date_le start_date end_date = true →
     date exp = start_date ∨ date exp = end_date → exp ∈ result).
Proof.
  cbn zeta. unfold get_expenses_by_date_range.
  assert (∀ exp, exp ∈ filter (λ exp, date_le start_date (date exp)
                                       && date_le (date exp) end_date) (expenses self)
                 ↔ exp ∈ expenses self ∧ date_le start_date (date exp) = true
                   ∧ date_le (date exp) end_date = true) as Hmem.
  { intros exp. rewrite list_elem_of_filter, andb_True, !Is_true_true. tauto. }
  split; [exact Hmem|].
  split; [intros exp; rewrite Hmem, !date_le_calendar; tauto|].
  split; [apply sublist_filter|]. split.
  - apply (length_filter_split
             (λ exp, date_le start_date (date exp) && date_le (date exp) end_date)).
  - intros exp Hin Hle [Heq|Heq]; apply Hmem; rewrite Heq;
      auto using date_le_refl.
Qed.


End TrackerProperties.

(** ** The monthly summary *)

(** What the accumulation loop leaves under one key: the entry it started
    with, extended by the amounts of the expenses of that category, in
    order. *)
Lemma foldl_accumulate_lookup (l : list Expense) (totals : gmap string float) (c : string) :
  foldl accumulate totals l !! c
  = match totals !! c with
    | Some t => Some (foldl PrimFloat.add t (amount <$> filter (λ exp, category exp = c) l))
    | None => subtotal c l
    end.
Proof.
  revert totals. induction l as [|exp l IH]; intros totals.
  - cbn. unfold subtotal. by destruct (totals !! c).
  - cbn [foldl]. rewrite IH. unfold subtotal, accumulate. rewrite filter_cons.
    destruct (decide (category exp = c)) as [<-|Hne].
    + destruct (totals !! category exp) as [t|]; by rewrite lookup_insert_eq.
    + destruct (totals !! category exp) as [t|]; by rewrite lookup_insert_ne.
Qed.


Section Summary.

Context `{!Interpreter}.

Variable round : float → Z → float.



End Summary.

(** * Further properties of the tracker *)

(** ** Queries *)

Lemma date_le_false (a b : Date) : date_le a b = false ↔ date_key b < date_key a.
Proof.
  pose proof (date_le_calendar a b) as Hle.
  destruct (date_le a b); split; intros Hab; try done.
  - destruct Hle as [Hle _]. specialize (Hle eq_refl). lia.
  - apply Z.nle_gt. intros Hkey. by apply Hle in Hkey.
Qed.

Lemma date_day_le_month (d : Date) : 1 ≤ day d ≤ days_in_month (year d) (month d).
Proof.
  destruct d as [y m dd ok]. cbn [year month day].
  unfold check_date_fields in ok.
  rewrite !andb_True, !Is_true_true, !Z.leb_le in ok. lia.
Qed.

(** X1. [get_expenses_by_category] returns the expenses that carry the
    category and no other, in the order of the collection and each as often
    as the collection has it; a category no expense carries gives the empty
    list, not an error. *)
Theorem get_expenses_by_category_spec (self : ExpenseTracker) (c : string) :
  let result := get_expenses_by_category self c in
  (∀ exp, exp ∈ result ↔ exp ∈ expenses self ∧ category exp = c)
  ∧ sublist result (expenses self)
  ∧ length (expenses self)
    = (length (filter (λ exp, category exp ≠ c) (expenses self)) + length result)%nat
  ∧ (result = [] ↔ ∀ exp, exp ∈ expenses self → category exp ≠ c).
Proof.
  cbn zeta. unfold get_expenses_by_category.
  split; [intros exp; rewrite list_elem_of_filter; tauto|].
  split; [apply sublist_filter|].
  split; [apply (length_filter_split (λ exp, category exp = c))|].
  split.
  - intros Hnil exp Hin Hc.
    by apply (filter_nil_not_elem_of (λ exp, category exp = c) _ exp Hnil).
  - apply filter_none.
Qed.

(** X2. [calculate_total_by_category] has an entry for a category exactly
    when some expense carries it, and the entry is the sum of the amounts
    that [get_expenses_by_category] returns for it, added in the order of
    the collection. *)
Theorem calculate_total_by_category_spec (self : ExpenseTracker) :
  (∀ c, c ∈ dom (calculate_total_by_category self)
        ↔ ∃ exp, exp ∈ expenses self ∧ category exp = c)
  ∧ (∀ c, calculate_total_by_category self !! c
          = match amount <$> get_expenses_by_category self c with
            | [] => None
            | a :: rest => Some (foldl PrimFloat.add a rest)
            end).
Proof.
  assert (∀ c, calculate_total_by_category self !! c
               = match amount <$> get_expenses_by_category self c with
                 | [] => None
                 | a :: rest => Some (foldl PrimFloat.add a rest)
                 end) as Hlookup.
  { intros c. unfold calculate_total_by_category.
    by rewrite foldl_accumulate_lookup, lookup_empty. }
  split; [|exact Hlookup].
  intros c. rewrite elem_of_dom, Hlookup. unfold get_expenses_by_category.
  destruct (filter (λ exp, category exp = c) (expenses self)) as [|exp l] eqn:Hfilter; cbn.
  - split; [by intros [? ?]|]. intros (exp & Hin & Hc).
    by destruct (filter_nil_not_elem_of (λ exp, category exp = c) _ exp Hfilter).
  - split; [|by eauto]. intros _. exists exp.
    assert (exp ∈ filter (λ exp, category exp = c) (expenses self)) as Hin
      by (rewrite Hfilter; left).
    apply list_elem_of_filter in Hin. tauto.
Qed.

(** X3. A date range whose start lies after its end is empty. *)
Theorem date_range_inverted (self : ExpenseTracker) (start_date end_date : Date) :
  date_le start_date end_date = false →
  get_expenses_by_date_range self start_date end_date = [].
Proof.
  intros Hinv. apply date_le_false in Hinv.
  unfold get_expenses_by_date_range. apply filter_none.
  intros exp _. rewrite andb_True, !Is_true_true, !date_le_calendar. lia.
Qed.

(** X4. The expenses of a month are those of the date range from its first
    to its last day. *)
Theorem month_is_a_date_range (self : ExpenseTracker) (first last : Date) :
  day first = 1 →
  year last = year first →
  month last = month first →
  day last = days_in_month (year first) (month first) →
  get_expenses_by_date_range self first last
  = filter (λ exp, year (date exp) = year first ∧ month (date exp) = month first)
           (expenses self).
Proof.
  intros Hfirst Hy Hm Hlast. unfold get_expenses_by_date_range.
  apply list_filter_iff. intros exp.
  pose proof (date_day_le_month (date exp)) as Hday.
  rewrite andb_True, !Is_true_true. unfold date_le.
  repeat (rewrite orb_true_iff || rewrite andb_true_iff).
  rewrite !Z.ltb_lt, !Z.eqb_eq, !Z.leb_le, Hy, Hm, Hfirst, Hlast.
  split.
  - intros [H1 H2]. lia.
  - intros [Hyear Hmonth]. rewrite Hyear, Hmonth in Hday. lia.
Qed.

(** ** Strings: stripping twice *)

Lemma append_cons (c : ascii) (s u : string) : String c s ++ u = String c (s ++ u).
Proof. done. Qed.

Lemma append_nil_l (u : string) : "" ++ u = u.
Proof. done. Qed.

Lemma lstrip_unfold (s : string) :
  lstrip s = match after_blank s with Some r => lstrip r | None => s end.
Proof.
  destruct s as [|c1 [|c2 [|c3 s3]]]; cbn [lstrip after_blank]; try done;
    repeat (case_match; try done).
Qed.

Lemma after_blank_shorter (s r : string) :
  after_blank s = Some r → (String.length r < String.length s)%nat.
Proof.
  destruct s as [|c1 [|c2 [|c3 s3]]]; cbn [after_blank]; try done;
    repeat (case_match; try done); intros [= <-]; cbn; lia.
Qed.

Lemma after_blank_app (s r u : string) :
  after_blank s = Some r → after_blank (s ++ u) = Some (r ++ u).
Proof.
  destruct s as [|c1 [|c2 [|c3 s3]]]; cbn [after_blank]; try done;
    repeat (case_match; try done); intros [= <-];
    rewrite !append_cons, ?append_nil_l; cbn [after_blank];
    repeat match goal with H : _ = _ |- _ => rewrite H; clear H end; done.
Qed.

(** What [lstrip] returns does not start with a blank. *)
Lemma after_blank_lstrip (s : string) : after_blank (lstrip s) = None.
Proof.
  remember (String.length s) as n eqn:Hn. revert s Hn.
  induction n as [n IH] using lt_wf_ind. intros s ->.
  rewrite lstrip_unfold. destruct (after_blank s) as [r|] eqn:Hhead; [|done].
  by eapply IH; [eapply after_blank_shorter|].
Qed.

(** Blanks put in front of a text are dropped with it. *)
Lemma lstrip_app_blank (s u : string) : lstrip s = "" → lstrip (s ++ u) = lstrip u.
Proof.
  remember (String.length s) as n eqn:Hn. revert s Hn.
  induction n as [n IH] using lt_wf_ind. intros s -> Hblank.
  rewrite lstrip_unfold in Hblank. rewrite (lstrip_unfold (s ++ u)).
  destruct (after_blank s) as [r|] eqn:Hhead.
  - rewrite (after_blank_app _ _ u Hhead).
    by eapply IH; [eapply after_blank_shorter|..].
  - subst s. by rewrite append_nil_l, <- lstrip_unfold.
Qed.

Lemma all_blank_spec (s : string) : all_blank s = true ↔ lstrip s = "".
Proof. unfold all_blank. by destruct (lstrip s). Qed.

(** [rstrip] cuts off a text made of blanks. *)
Lemma rstrip_split (s : string) : ∃ u, s = rstrip s ++ u ∧ lstrip u = "".
Proof.
  induction s as [|c s IH]; [by exists ""|].
  cbn [rstrip]. destruct (all_blank (String c s)) eqn:Hblank.
  - exists (String c s). split; [done|]. by apply all_blank_spec.
  - destruct IH as (u & Hs & Hu). exists u. split; [|done].
    by rewrite append_cons, <- Hs.
Qed.

Lemma rstrip_rstrip (s : string) : rstrip (rstrip s) = rstrip s.
Proof.
  induction s as [|c s IH]; [done|].
  cbn [rstrip]. destruct (all_blank (String c s)) eqn:Hblank; [done|].
  cbn [rstrip]. destruct (all_blank (String c (rstrip s))) eqn:Hblank'.
  - exfalso. destruct (rstrip_split s) as (u & Hs & Hu).
    apply all_blank_spec in Hblank'.
    assert (lstrip (String c s) = "") as Hall.
    { rewrite Hs at 1. rewrite <- append_cons. by rewrite lstrip_app_blank. }
    apply all_blank_spec in Hall. congruence.
  - by rewrite IH.
Qed.

Lemma lstrip_rstrip (s : string) : after_blank s = None → lstrip (rstrip s) = rstrip s.
Proof.
  intros Hhead. rewrite lstrip_unfold.
  destruct (after_blank (rstrip s)) as [r|] eqn:Hr; [|done].
  destruct (rstrip_split s) as (u & Hs & _).
  apply (after_blank_app _ _ u) in Hr. rewrite <- Hs in Hr. congruence.
Qed.

Lemma strip_strip (s : string) : strip (strip s) = strip s.
Proof.
  unfold strip. rewrite lstrip_rstrip by apply after_blank_lstrip.
  apply rstrip_rstrip.
Qed.

(** ** Saving and loading again *)

Lemma _save_expenses_files (self : ExpenseTracker) (w : World) :
  readonly (_save_expenses self w) = readonly w
  ∧ ticks (_save_expenses self w) = ticks w
  ∧ (data_file self ∉ readonly w →
     files (_save_expenses self w)
     = <[data_file self := Json (to_dict <$> expenses self)]> (files w))
  ∧ (data_file self ∈ readonly w →
     files (_save_expenses self w) = files w
     ∧ log (_save_expenses self w) = (log w ++ [(ERROR, MsgSaveError OSError)])%list).
Proof.
  unfold _save_expenses, write_json.
  destruct (decide (data_file self ∈ readonly w)); cbn;
    repeat split; try done; intros; contradiction.
Qed.

Lemma _save_expenses_in_step (self : ExpenseTracker) (w : World) :
  data_file self ∉ readonly w → in_step self (_save_expenses self w).
Proof.
  intros Hrw. left.
  destruct (_save_expenses_files self w) as (_ & _ & Hfiles & _).
  rewrite (Hfiles Hrw). apply lookup_insert_eq.
Qed.

Section Sessions.

Context `{!Interpreter}.

Variable hash : string → Z.
Variable clock : nat → Z.
Variable today : nat → Date.

(** A tracker built on a file that is in step with a collection holds that
    collection. *)
Lemma reload_in_step (self : ExpenseTracker) (w : World) :
  in_step self w →
  expenses (ExpenseTracker_init hash clock (data_file self) w).1 = expenses self.
Proof.
  intros Hstep. unfold ExpenseTracker_init.
  set (blank := mkTracker (data_file self) [] default_categories).
  destruct (_load_expenses_cases hash clock blank w) as (self' & w' & -> & _ & _ & Hcases).
  change (data_file blank) with (data_file self) in Hcases. cbn [fst].
  destruct Hstep as [Hfile|[Hfile ->]]; rewrite Hfile in Hcases.
  - by rewrite mapM_from_dict_to_dict in Hcases.
  - done.
Qed.

(** What a call of [add_expense] that passes both checks returns. *)
Lemma add_expense_accepted (self : ExpenseTracker) (amount0 : float)
    (category0 description0 : string) (date0 : option Date) (w : World) :
  PrimFloat.leb amount0 0 = false →
  strip description0 ≠ "" →
  let w1 := match date0 with Some _ => w | None => tick w end in
  let expense :=
    mkExpense amount0 category0 (strip description0)
      (match date0 with Some d => d | None => today (ticks w) end)
      (pretty (clock (ticks w1)) ++ "_" ++ pretty (hash (strip description0) mod 10000)) in
  let self' := mkTracker (data_file self) (expenses self ++ [expense])
                 ({[ category0 ]} ∪ categories self) in
  add_expense hash clock today self amount0 category0 description0 date0 w
  = (Return true, self',
     logger INFO (MsgAdded amount0 category0 description0) (_save_expenses self' (tick w1))).
Proof.
  intros Hamount Hdesc. unfold add_expense, add_expense_try. rewrite Hamount.
  destruct (str_truthy (strip description0)) eqn:Htruthy;
    [|apply str_truthy_false in Htruthy; contradiction].
  by destruct date0.
Qed.

(** What a call of [add_expense] that fails a check returns. *)
Lemma add_expense_rejected (self : ExpenseTracker) (amount0 : float)
    (category0 description0 : string) (date0 : option Date) (w : World) :
  (PrimFloat.leb amount0 0 = true →
   add_expense hash clock today self amount0 category0 description0 date0 w
   = (Raise (ValueError AmountNotPositive), self,
      logger ERROR (MsgAddFailed (ValueError AmountNotPositive)) w))
  ∧ (PrimFloat.leb amount0 0 = false → strip description0 = "" →
     add_expense hash clock today self amount0 category0 description0 date0 w
     = (Raise (ValueError EmptyDescription), self,
        logger ERROR (MsgAddFailed (ValueError EmptyDescription)) w)).
Proof.
  unfold add_expense, add_expense_try. split.
  - by intros ->.
  - intros -> ->. done.
Qed.

(** X5. [add_expense] has three outcomes and the arguments decide which:
    it raises the amount error exactly when [amount <= 0] holds, whatever
    the description; it raises the description error exactly when the amount
    passes and the stripped description is empty (the description is made
    of blanks, in the sense of [str.isspace]); it returns [True] in every
    other case, which includes an amount that is not a number, since
    [nan <= 0] is false. It never returns [False]. *)
Theorem add_expense_outcome (self : ExpenseTracker) (amount0 : float)
    (category0 description0 : string) (date0 : option Date) (w : World) :
  ∃ r self' w',
    add_expense hash clock today self amount0 category0 description0 date0 w
      = (r, self', w')
    ∧ (r = Raise (ValueError AmountNotPositive) ↔ PrimFloat.leb amount0 0 = true)
    ∧ (r = Raise (ValueError EmptyDescription)
       ↔ PrimFloat.leb amount0 0 = false ∧ strip description0 = "")
    ∧ (r = Return true ↔ PrimFloat.leb amount0 0 = false ∧ strip description0 ≠ "")
    ∧ r ≠ Return false
    ∧ PrimFloat.leb nan 0 = false.
Proof.
  destruct (PrimFloat.leb amount0 0) eqn:Hamount.
  - destruct (add_expense_rejected self amount0 category0
                description0 date0 w) as [Hm _].
    rewrite (Hm Hamount). eexists _, _, _. split; [reflexivity|].
    repeat split; try done; intros; try discriminate; by intuition.
  - destruct (decide (strip description0 = "")) as [Hdesc|Hdesc].
    + destruct (add_expense_rejected self amount0 category0
                  description0 date0 w) as [_ Hd].
      rewrite (Hd Hamount Hdesc). eexists _, _, _. split; [reflexivity|].
      repeat split; try done; intros; try discriminate; by intuition.
    + rewrite add_expense_accepted by done. eexists _, _, _. split; [reflexivity|].
      repeat split; try done; intros; try discriminate; by intuition.
Qed.

(** X19. Two accepted additions with dates supplied, with descriptions that
    are the same text once stripped, made while the clock shows the same second, give
    both expenses the same id; removing that id then removes both. *)
Theorem add_twice_same_id (self : ExpenseTracker) (amount1 amount2 : float)
    (category1 category2 description1 description2 : string) (date1 date2 : Date)
    (w : World) :
  PrimFloat.leb amount1 0 = false →
  PrimFloat.leb amount2 0 = false →
  strip description1 ≠ "" →
  strip description2 = strip description1 →
  clock (S (ticks w)) = clock (ticks w) →
  ∃ expense1 expense2 self1 w1 self2 w2,
    add_expense hash clock today self amount1 category1 description1 (Some date1) w
      = (Return true, self1, w1)
    ∧ add_expense hash clock today self1 amount2 category2 description2 (Some date2) w1
      = (Return true, self2, w2)
    ∧ expenses self2 = (expenses self ++ [expense1; expense2])%list
    ∧ id expense1 = id expense2
    ∧ expenses (remove_expense self2 (id expense1) w2).1.2
      = filter (λ exp, id exp ≠ id expense1) (expenses self).
Proof.
  intros Hamount1 Hamount2 Hdesc1 Hdesc2 Hclock.
  eexists _, _, _, _, _, _.
  split; [by rewrite add_expense_accepted by done|].
  split; [by rewrite add_expense_accepted by (by rewrite ?Hdesc2)|].
  split; [cbn [expenses]; by rewrite <- app_assoc|].
  assert (∀ self' : ExpenseTracker,
            ticks (logger INFO (MsgAdded amount1 category1 description1)
                     (_save_expenses self' (tick w))) = S (ticks w)) as Hticks.
  { intros self'. cbn [logger ticks].
    by destruct (_save_expenses_files self' (tick w)) as (_ & -> & _). }
  cbn [id]. rewrite Hticks, Hdesc2, Hclock. split; [reflexivity|].
  unfold remove_expense.
  destruct (_ <? _)%nat; cbn [fst snd expenses];
    by rewrite !filter_app, !filter_cons_False, !filter_nil, !app_nil_r by (by intros []).
Qed.

(** ** Deserialising and building a tracker *)

(** Deserialising touches neither the files nor the log. *)
Lemma from_dict_world (data : Dict) (w w' : World) (r : outcome Expense) :
  from_dict hash clock data w = (r, w') →
  files w' = files w ∧ readonly w' = readonly w ∧ log w' = log w.
Proof.
  unfold from_dict, Expense_new.
  repeat case_match; by intros [= <- <-].
Qed.

Lemma mapM_from_dict_world (items : list Dict) (w w' : World) (r : outcome (list Expense)) :
  mapM (from_dict hash clock) items w = (r, w') →
  files w' = files w ∧ readonly w' = readonly w ∧ log w' = log w.
Proof.
  revert w r w'. induction items as [|item items IH]; intros w r w'.
  - by intros [= <- <-].
  - cbn [mapM]. unfold mbind, M_bind at 1.
    destruct (from_dict hash clock item w) as [[expense|e] w1] eqn:Hitem.
    + apply from_dict_world in Hitem as (Hf & Hr & Hl).
      unfold mbind, M_bind at 1. fold (@mapM M _ _ _ _ (from_dict hash clock)).
      destruct (mapM (from_dict hash clock) items w1) as [[l|e] w2] eqn:Hrest;
        apply IH in Hrest as (Hf' & Hr' & Hl'); intros [= <- <-]; by rewrite Hf', Hr', Hl'.
    + apply from_dict_world in Hitem. by intros [= <- <-].
Qed.

(** Closes one case of the constructor once the file has been looked up. *)
Ltac init_case :=
  eexists _, _; (split; [reflexivity|]); cbn; rewrite ?last_snoc;
  repeat split; try done; set_solver.

(** X12. Building a tracker reads the backing file and never writes it: the
    files are as before, even when the text was not JSON. The tracker is
    bound to the path and knows the nine built-in categories and no other,
    so the categories of the loaded expenses are not registered. The last
    log record counts the loaded expenses. A file that cannot be read gives
    the empty collection, with an error record. *)
Theorem init_reads_only (path : string) (w : World) :
  ∃ self w',
    ExpenseTracker_init hash clock path w = (self, w')
    ∧ data_file self = path
    ∧ categories self = default_categories
    ∧ files w' = files w
    ∧ readonly w' = readonly w
    ∧ last (log w') = Some (INFO, MsgInitialized (length (expenses self)))
    ∧ (files w !! path = Some Unreadable →
       expenses self = [] ∧ (ERROR, MsgLoadError OSError) ∈ log w').
Proof.
  unfold ExpenseTracker_init, _load_expenses, _load_expenses_try. cbn [data_file].
  destruct (files w !! path) as [[| |items]|] eqn:Hfile; cbn.
  - init_case.
  - init_case.
  - destruct (mapM (from_dict hash clock) items w) as [[l|e] w1] eqn:Hload;
      apply mapM_from_dict_world in Hload as (Hfiles & Hro & _);
      [|destruct e]; init_case.
  - init_case.
Qed.

(** X13. A serialised expense without an id, or with a null id, is not an
    error: [from_dict] makes one up, the seconds of the clock, an
    underscore and the hash of the description modulo 10000, which lies
    between 0 and 9999 also for a negative hash; the clock has been read
    once. With an id
    in the dict the expense gets that id and the clock is not read. *)
Theorem from_dict_id (data : Dict) (w : World) (s : string) (d : Date)
    (a : float) (c ds : string) :
  d_date data = Some s → fromisoformat s = Return d →
  d_amount data = Some a → d_category data = Some c →
  d_description data = Some ds → d_others data = [] →
  (d_id data = None ∨ d_id data = Some None →
   from_dict hash clock data w
   = (Return (mkExpense a c ds d
                (pretty (clock (ticks w)) ++ "_" ++ pretty (hash ds mod 10000))),
      tick w)
   ∧ 0 ≤ hash ds mod 10000 < 10000)
  ∧ (∀ i, d_id data = Some (Some i) →
     from_dict hash clock data w = (Return (mkExpense a c ds d i), w)).
Proof.
  intros Hdate Hiso Ha Hc Hds Hothers. unfold from_dict.
  rewrite Hdate, Hiso, Ha, Hc, Hds, Hothers. split.
  - intros Hid. split; [by destruct Hid as [-> | ->]|].
    apply Z.mod_pos_bound. lia.
  - by intros i ->.
Qed.

(** What [remove_expense] returns, by whether some expense carries the id. *)
Lemma remove_expense_cases (self : ExpenseTracker) (expense_id : string) (w : World) :
  let self' := mkTracker (data_file self)
                 (filter (λ exp, id exp ≠ expense_id) (expenses self)) (categories self) in
  ((∃ exp, exp ∈ expenses self ∧ id exp = expense_id) →
   remove_expense self expense_id w
   = (true, self', logger INFO (MsgRemoved expense_id) (_save_expenses self' w)))
  ∧ ((∀ exp, exp ∈ expenses self → id exp ≠ expense_id) →
     self' = self
     ∧ remove_expense self expense_id w
       = (false, self, logger WARNING (MsgNotFound expense_id) w)).
Proof.
  cbn zeta. unfold remove_expense. cbn [expenses]. split.
  - intros (exp & Hin & Hid).
    assert (length (filter (λ exp, id exp ≠ expense_id) (expenses self))
            < length (expenses self))%nat as Hlt
      by (apply (length_filter_lt _ _ exp); [done|by intros []]).
    apply Nat.ltb_lt in Hlt. by rewrite Hlt.
  - intros Hnone. rewrite (filter_all _ _ Hnone).
    rewrite Nat.ltb_irrefl. by destruct self.
Qed.

Lemma in_step_logger (self : ExpenseTracker) (lv : level) (m : message) (w : World) :
  in_step self w → in_step self (logger lv m w).
Proof. done. Qed.

(** X6. When the backing file cannot be written, an accepted
    [add_expense] still returns [True] and still appends the expense: the
    failure of the save is logged as an error and the files stay as they
    were, so memory and disk now differ. *)
Theorem add_expense_unwritable (self : ExpenseTracker) (amount0 : float)
    (category0 description0 : string) (date0 : option Date) (w : World) :
  PrimFloat.leb amount0 0 = false →
  strip description0 ≠ "" →
  data_file self ∈ readonly w →
  ∃ expense self' w',
    add_expense hash clock today self amount0 category0 description0 date0 w
      = (Return true, self', w')
    ∧ expenses self' = (expenses self ++ [expense])%list
    ∧ files w' = files w
    ∧ (ERROR, MsgSaveError OSError) ∈ log w'.
Proof.
  intros Hamount Hdesc Hro. rewrite add_expense_accepted by done.
  eexists _, _, _. split; [reflexivity|]. split; [reflexivity|].
  set (self' := mkTracker _ _ _). set (w1 := tick _).
  destruct (_save_expenses_files self' w1) as (_ & _ & _ & Hfail).
  destruct Hfail as [Hfiles Hlog]; [by destruct date0|].
  cbn [logger files log]. rewrite Hfiles, Hlog.
  split; [by destruct date0|]. set_solver.
Qed.

(** X7. After an accepted [add_expense] on a file that can be written, a
    new tracker on the same path holds the whole collection, the new
    expense last, whatever the file held before the call (nothing, text that
    is not JSON, another collection). *)
Theorem add_expense_then_reload (self : ExpenseTracker) (amount0 : float)
    (category0 description0 : string) (date0 : option Date) (w : World) :
  PrimFloat.leb amount0 0 = false →
  strip description0 ≠ "" →
  data_file self ∉ readonly w →
  ∃ self' w',
    add_expense hash clock today self amount0 category0 description0 date0 w
      = (Return true, self', w')
    ∧ length (expenses self') = S (length (expenses self))
    ∧ expenses (ExpenseTracker_init hash clock (data_file self) w').1 = expenses self'.
Proof.
  intros Hamount Hdesc Hrw. rewrite add_expense_accepted by done.
  eexists _, _. split; [reflexivity|].
  split; [cbn; rewrite length_app; cbn; lia|].
  set (self' := mkTracker _ _ _). set (w1 := tick _).
  apply (reload_in_step self'), in_step_logger, _save_expenses_in_step.
  by destruct date0.
Qed.

(** X8. An accepted [add_expense] changes the totals by category in one
    entry only: the entry of the expense's category is created with the
    amount, or grows by it; every other entry is as before. *)
Theorem totals_after_add (self : ExpenseTracker) (amount0 : float)
    (category0 description0 : string) (date0 : option Date) (w : World) :
  PrimFloat.leb amount0 0 = false →
  strip description0 ≠ "" →
  ∃ self' w',
    add_expense hash clock today self amount0 category0 description0 date0 w
      = (Return true, self', w')
    ∧ calculate_total_by_category self' !! category0
      = Some (match calculate_total_by_category self !! category0 with
              | Some t => PrimFloat.add t amount0
              | None => amount0
              end)
    ∧ (∀ c, c ≠ category0 →
       calculate_total_by_category self' !! c = calculate_total_by_category self !! c).
Proof.
  intros Hamount Hdesc. rewrite add_expense_accepted by done.
  eexists _, _. split; [reflexivity|].
  unfold calculate_total_by_category. cbn [expenses].
  rewrite foldl_app. cbn [foldl].
  set (totals := foldl accumulate ∅ (expenses self)).
  unfold accumulate. cbn [category amount].
  split.
  - destruct (totals !! category0); by rewrite lookup_insert_eq.
  - intros c Hc. destruct (totals !! category0); by rewrite lookup_insert_ne.
Qed.

(** X9. Removing the expense that [add_expense] has just appended, by its
    id, gives back the collection as it was before the addition, provided no
    earlier expense carries the same id. *)
Theorem add_then_remove (self : ExpenseTracker) (amount0 : float)
    (category0 description0 : string) (date0 : option Date) (w : World) :
  PrimFloat.leb amount0 0 = false →
  strip description0 ≠ "" →
  ∃ expense self1 w1,
    add_expense hash clock today self amount0 category0 description0 date0 w
      = (Return true, self1, w1)
    ∧ expenses self1 = (expenses self ++ [expense])%list
    ∧ ((∀ exp, exp ∈ expenses self → id exp ≠ id expense) →
       ∃ self2 w2,
         remove_expense self1 (id expense) w1 = (true, self2, w2)
         ∧ expenses self2 = expenses self).
Proof.
  intros Hamount Hdesc. rewrite add_expense_accepted by done.
  eexists _, _, _. split; [reflexivity|]. split; [reflexivity|].
  intros Hfresh.
  set (expense := mkExpense _ _ _ _ _) in *. set (self1 := mkTracker _ _ _).
  destruct (remove_expense_cases self1 (id expense)
              (logger INFO (MsgAdded amount0 category0 description0)
                 (_save_expenses self1
                    (tick match date0 with Some _ => w | None => tick w end))))
    as [Hfound _].
  rewrite Hfound.
  - eexists _, _. split; [reflexivity|]. subst self1. cbn [expenses].
    rewrite filter_app, filter_cons_False, filter_nil, app_nil_r by (by intros []).
    by apply filter_all.
  - exists expense. split; [|done]. subst self1. cbn [expenses]. set_solver.
Qed.

(** X10. After [remove_expense] no expense carries the id any more, and a
    second call with the same id finds nothing: it returns [False], leaves
    the tracker as it is and writes nothing. *)
Theorem remove_expense_twice (self : ExpenseTracker) (expense_id : string) (w : World) :
  ∃ found self1 w1,
    remove_expense self expense_id w = (found, self1, w1)
    ∧ (∀ exp, exp ∈ expenses self1 → id exp ≠ expense_id)
    ∧ remove_expense self1 expense_id w1
      = (false, self1, logger WARNING (MsgNotFound expense_id) w1).
Proof.
  assert (∀ exp, exp ∈ filter (λ exp, id exp ≠ expense_id) (expenses self)
                 → id exp ≠ expense_id) as Hkept
    by (intros exp Hin; by apply list_elem_of_filter in Hin as [? _]).
  destruct (decide (Exists (λ exp, id exp = expense_id) (expenses self))) as [Hex|Hno].
  - apply Exists_exists in Hex.
    destruct (remove_expense_cases self expense_id w) as [Hfound _].
    rewrite (Hfound Hex).
    eexists _, _, _. split; [reflexivity|]. split; [done|].
    by apply remove_expense_cases.
  - assert (∀ exp, exp ∈ expenses self → id exp ≠ expense_id) as Hnone.
    { intros exp Hin Hid. apply Hno, Exists_exists. eauto. }
    destruct (remove_expense_cases self expense_id w) as [_ Hnot].
    destruct (Hnot Hnone) as [_ ->].
    eexists _, _, _. split; [reflexivity|]. split; [done|].
    by apply remove_expense_cases.
Qed.

(** X11. After a [remove_expense] that found the id, on a file that can be
    written, a new tracker on the same path holds exactly the expenses that
    were kept. *)
Theorem remove_expense_then_reload (self : ExpenseTracker) (expense_id : string)
    (w : World) :
  data_file self ∉ readonly w →
  (∃ exp, exp ∈ expenses self ∧ id exp = expense_id) →
  ∃ self' w',
    remove_expense self expense_id w = (true, self', w')
    ∧ expenses self' = filter (λ exp, id exp ≠ expense_id) (expenses self)
    ∧ expenses (ExpenseTracker_init hash clock (data_file self) w').1 = expenses self'.
Proof.
  intros Hrw Hfound.
  destruct (remove_expense_cases self expense_id w) as [Hcase _].
  rewrite (Hcase Hfound).
  eexists _, _. split; [reflexivity|]. split; [reflexivity|].
  set (self' := mkTracker _ _ _).
  by apply (reload_in_step self'), in_step_logger, _save_expenses_in_step.
Qed.

(** [from_dict] on a readable dict returns the expense it stands for. *)
Lemma from_dict_readable (item : Dict) (w : World) :
  readable item →
  ∃ expense w', from_dict hash clock item w = (Return expense, w')
                ∧ stands_for item expense.
Proof.
  intros (s & d & Hdate & Hiso & [a Ha] & [c Hc] & [ds Hds] & Hothers).
  unfold from_dict, Expense_new. rewrite Hdate, Hiso, Ha, Hc, Hds, Hothers.
  destruct (d_id item) as [[i|]|] eqn:Hid; cbn;
    eexists _, _; (split; [reflexivity|]); unfold stands_for; cbn;
    (split; [done|]); (split; [done|]); (split; [done|]); (split; [by eauto|]);
    intros i' Hi'; congruence.
Qed.

Lemma mapM_from_dict_readable (items : list Dict) (w : World) :
  Forall readable items →
  ∃ l w', mapM (from_dict hash clock) items w = (Return l, w')
          ∧ Forall2 stands_for items l.
Proof.
  intros Hall. revert w. induction Hall as [|item items Hitem _ IH]; intros w.
  - by eexists _, _.
  - cbn [mapM]. unfold mbind, M_bind at 1.
    destruct (from_dict_readable item w Hitem) as (expense & w1 & -> & Hstands).
    unfold mbind, M_bind at 1. fold (@mapM M _ _ _ _ (from_dict hash clock)).
    destruct (IH w1) as (l & w2 & -> & Hrest).
    eexists _, _. split; [reflexivity|]. by constructor.
Qed.

(** X14. A backing file whose objects are all readable is loaded whole and
    in order: the collection has one expense per object, the i-th expense
    has the fields of the i-th object and its id when the object has one.
    Amounts and descriptions are taken as they are, without the checks of
    [add_expense]. *)
Theorem load_keeps_order (path : string) (w : World) (items : list Dict) :
  files w !! path = Some (Json items) →
  Forall readable items →
  Forall2 stands_for items (expenses (ExpenseTracker_init hash clock path w).1).
Proof.
  intros Hfile Hall. unfold ExpenseTracker_init.
  set (blank := mkTracker path [] default_categories).
  destruct (_load_expenses_cases hash clock blank w) as (self & w' & -> & _ & _ & Hcases).
  change (data_file blank) with path in Hcases. rewrite Hfile in Hcases.
  destruct (mapM_from_dict_readable items w Hall) as (l & w1 & Hload & Hstands).
  rewrite Hload in Hcases. cbn [fst]. by rewrite Hcases.
Qed.

(** What the constructor leaves: the path, the files and permissions as
    they were, and the collection that [_load_expenses] found. *)
Lemma constructor_facts (path : string) (w : World) :
  ∃ self w',
    ExpenseTracker_init hash clock path w = (self, w')
    ∧ data_file self = path
    ∧ files w' = files w
    ∧ readonly w' = readonly w
    ∧ match files w !! path with
      | None => expenses self = []
      | Some (Json items) =>
          match mapM (from_dict hash clock) items w with
          | (Return l, _) => expenses self = l
          | (Raise _, _) => expenses self = []
          end
      | Some _ => expenses self = []
      end.
Proof.
  unfold ExpenseTracker_init, _load_expenses, _load_expenses_try. cbn [data_file].
  destruct (files w !! path) as [[| |items]|] eqn:Hfile; cbn;
    try (eexists _, _; by repeat split).
  destruct (mapM (from_dict hash clock) items w) as [[l|e] w1] eqn:Hload;
    apply mapM_from_dict_world in Hload as (Hfiles & Hro & _);
    [|destruct e]; eexists _, _; by repeat split.
Qed.

(** ** Sessions *)

Lemma run_calls_cons (c : call) (cs : list call) (self : ExpenseTracker) (w : World) :
  run_calls hash clock today (c :: cs) self w
  = run_calls hash clock today cs
      (run_call hash clock today c self w).1 (run_call hash clock today c self w).2.
Proof.
  unfold run_calls. cbn [foldl fst snd].
  by destruct (run_call hash clock today c self w).
Qed.

(** One call keeps the path, the write permissions and the agreement of
    file and collection. *)
Lemma run_call_in_step (c : call) (self : ExpenseTracker) (w : World) :
  data_file self ∉ readonly w →
  in_step self w →
  data_file (run_call hash clock today c self w).1 = data_file self
  ∧ readonly (run_call hash clock today c self w).2 = readonly w
  ∧ in_step (run_call hash clock today c self w).1 (run_call hash clock today c self w).2.
Proof.
  intros Hrw Hstep. destruct c as [a c d dt|expense_id]; cbn [run_call].
  - destruct (PrimFloat.leb a 0) eqn:Hamount;
      [|destruct (decide (strip d = "")) as [Hdesc|Hdesc]].
    + destruct (add_expense_rejected self a c d dt w) as [-> _]; done.
    + destruct (add_expense_rejected self a c d dt w) as [_ ->]; done.
    + rewrite add_expense_accepted by done. cbn [fst snd].
      set (self' := mkTracker _ _ _). set (w1 := tick _).
      assert (data_file self' ∉ readonly w1) as Hrw1 by (by destruct dt).
      destruct (_save_expenses_files self' w1) as (Hro & _).
      split; [done|]. split; [cbn; rewrite Hro; by destruct dt|].
      by apply in_step_logger, _save_expenses_in_step.
  - destruct (decide (Exists (λ exp, id exp = expense_id) (expenses self))) as [Hex|Hno].
    + apply Exists_exists in Hex.
      destruct (remove_expense_cases self expense_id w) as [Hfound _].
      rewrite (Hfound Hex). cbn [fst snd].
      set (self' := mkTracker _ _ _).
      destruct (_save_expenses_files self' w) as (Hro & _).
      split; [done|]. split; [done|].
      by apply in_step_logger, (_save_expenses_in_step self').
    + assert (∀ exp, exp ∈ expenses self → id exp ≠ expense_id) as Hnone.
      { intros exp Hin Hid. apply Hno, Exists_exists. eauto. }
      destruct (remove_expense_cases self expense_id w) as [_ Hnot].
      destruct (Hnot Hnone) as [_ ->]. done.
Qed.

Lemma run_calls_in_step (cs : list call) (self : ExpenseTracker) (w : World) :
  data_file self ∉ readonly w →
  in_step self w →
  data_file (run_calls hash clock today cs self w).1 = data_file self
  ∧ in_step (run_calls hash clock today cs self w).1 (run_calls hash clock today cs self w).2.
Proof.
  revert self w. induction cs as [|c cs IH]; intros self w Hrw Hstep; [done|].
  rewrite run_calls_cons.
  destruct (run_call_in_step c self w Hrw Hstep) as (Hpath & Hro & Hstep').
  destruct (IH (run_call hash clock today c self w).1 (run_call hash clock today c self w).2)
    as [Hpath' Hstep'']; [by rewrite Hpath, Hro|done|].
  by rewrite Hpath', Hpath.
Qed.

(** X15. Durability. Take a path that can be written and holds no file, or
    holds a collection written by the tracker. Build a tracker on it and make
    any sequence of [add_expense] and [remove_expense] calls, accepted or
    not. A new tracker built on the same path afterwards holds exactly the
    expenses of the first one, in the same order. *)
Theorem session_then_reload (path : string) (w : World) (cs : list call) :
  path ∉ readonly w →
  files w !! path = None ∨ (∃ l, files w !! path = Some (Json (to_dict <$> l))) →
  ∃ self0 w0 self' w',
    ExpenseTracker_init hash clock path w = (self0, w0)
    ∧ run_calls hash clock today cs self0 w0 = (self', w')
    ∧ expenses (ExpenseTracker_init hash clock path w').1 = expenses self'.
Proof.
  intros Hrw Hfile.
  destruct (constructor_facts path w) as (self0 & w0 & Hinit & Hpath & Hfiles & Hro & Hexp).
  destruct (run_calls hash clock today cs self0 w0) as [self' w'] eqn:Hrun.
  exists self0, w0, self', w'. split; [done|]. split; [done|].
  assert (in_step self0 w0) as Hstep0.
  { unfold in_step. rewrite Hpath, Hfiles.
    destruct Hfile as [Hnone|[l Hl]].
    - right. split; [done|]. rewrite Hnone in Hexp. done.
    - left. rewrite Hl in Hexp |- *. rewrite mapM_from_dict_to_dict in Hexp.
      by rewrite Hexp. }
  destruct (run_calls_in_step cs self0 w0) as [Hpath' Hstep]; [by rewrite Hpath, Hro|done|].
  rewrite Hrun in Hpath', Hstep. cbn [fst snd] in *.
  rewrite <- Hpath, <- Hpath'. by apply reload_in_step.
Qed.

(** One call keeps every stored expense acceptable and its category
    registered. *)
Lemma run_call_accepted (c : call) (self : ExpenseTracker) (w : World) :
  Forall (λ exp, accepted exp ∧ category exp ∈ categories self) (expenses self) →
  let self' := (run_call hash clock today c self w).1 in
  Forall (λ exp, accepted exp ∧ category exp ∈ categories self') (expenses self')
  ∧ categories self ⊆ categories self'.
Proof.
  intros Hall. destruct c as [a c d dt|expense_id]; cbn [run_call].
  - destruct (PrimFloat.leb a 0) eqn:Hamount;
      [|destruct (decide (strip d = "")) as [Hdesc|Hdesc]].
    + destruct (add_expense_rejected self a c d dt w) as [-> _]; done.
    + destruct (add_expense_rejected self a c d dt w) as [_ ->]; done.
    + rewrite add_expense_accepted by done. cbn. split; [|set_solver].
      apply Forall_app. split.
      * eapply Forall_impl; [exact Hall|]. cbn. intros exp [? ?]. split; [done|set_solver].
      * apply Forall_singleton. cbn. split; [|set_solver].
        split; [done|]. split; [done|]. apply strip_strip.
  - assert (Forall (λ exp, accepted exp ∧ category exp ∈ categories self)
              (filter (λ exp, id exp ≠ expense_id) (expenses self))) as Hkept.
    { rewrite Forall_forall in Hall |- *. intros exp Hin.
      apply list_elem_of_filter in Hin as [_ Hin]. by apply Hall. }
    unfold remove_expense. by destruct (_ <? _)%nat.
Qed.

(** X16. In a tracker built on a path without a file and changed only by
    [add_expense] and [remove_expense], every expense passed the checks: the
    comparison [amount <= 0] is false for it, its description is not empty
    and [str.strip] leaves it as it is, and its category is among the known
    categories, which still include the nine built-in ones. *)
Theorem session_keeps_checks (path : string) (w : World) (cs : list call) :
  files w !! path = None →
  ∃ self0 w0 self' w',
    ExpenseTracker_init hash clock path w = (self0, w0)
    ∧ run_calls hash clock today cs self0 w0 = (self', w')
    ∧ default_categories ⊆ categories self'
    ∧ ∀ exp, exp ∈ expenses self' →
        PrimFloat.leb (amount exp) 0 = false
        ∧ description exp ≠ ""
        ∧ strip (description exp) = description exp
        ∧ category exp ∈ categories self'.
Proof.
  intros Hfile.
  destruct (constructor_facts path w) as (self0 & w0 & Hinit & _ & _ & _ & Hexp).
  rewrite Hfile in Hexp.
  destruct (run_calls hash clock today cs self0 w0) as [self' w'] eqn:Hrun.
  exists self0, w0, self', w'. split; [done|]. split; [done|].
  assert (categories self0 = default_categories) as Hcat.
  { unfold ExpenseTracker_init in Hinit.
    destruct (_load_expenses_cases hash clock (mkTracker path [] default_categories) w)
      as (self1 & w1 & Hload & _ & Hc & _).
    rewrite Hload in Hinit. by injection Hinit as <- _. }
  assert (∀ cs self w,
            Forall (λ exp, accepted exp ∧ category exp ∈ categories self) (expenses self) →
            let self' := (run_calls hash clock today cs self w).1 in
            Forall (λ exp, accepted exp ∧ category exp ∈ categories self') (expenses self')
            ∧ categories self ⊆ categories self') as Hsession.
  { clear. intros cs. induction cs as [|c cs IH]; intros self w Hall; [done|].
    cbn zeta. rewrite run_calls_cons.
    destruct (run_call_accepted c self w Hall) as [Hall1 Hsub1].
    destruct (IH _ (run_call hash clock today c self w).2 Hall1) as [Hall2 Hsub2].
    split; [done|]. by etrans. }
  destruct (Hsession cs self0 w0) as [Hall Hsub]; [by rewrite Hexp|].
  rewrite Hrun in Hall, Hsub. cbn [fst] in *. rewrite Hcat in Hsub.
  split; [done|]. intros exp Hin.
  rewrite Forall_forall in Hall. destruct (Hall exp Hin) as [(? & ? & ?) ?]. done.
Qed.

End Sessions.

(** ** The monthly summary, once more *)

Section NoSuchMonth.

Context `{!Interpreter}.

(** X17. No date has a month outside 1..12 or a year outside 1..9999, so
    the summary asked for such a month is the zero summary, whatever the
    collection. *)
Theorem monthly_summary_no_such_month (round : float → Z → float)
    (self : ExpenseTracker) (year0 month0 : Z) :
  month0 < 1 ∨ 12 < month0 ∨ year0 < 1 ∨ 9999 < year0 →
  calculate_monthly_summary round self year0 month0 = mkSummary 0 0 0 ∅.
Proof.
  intros Hout. unfold calculate_monthly_summary.
  rewrite filter_none; [done|].
  intros exp _ [Hy Hm]. destruct (date exp) as [y m d ok]. cbn in Hy, Hm.
  apply check_date_fields_bounds in ok. lia.
Qed.

End NoSuchMonth.

(** * The demonstration script *)

Lemma complex_function_counter (input_value : Z) (flag1 flag2 flag3 : bool)
    (global_counter : Z) :
  ∃ r, complex_function_with_many_branches input_value flag1 flag2 flag3 global_counter
       = (r, if all_set (input_value, flag1, flag2, flag3)
             then global_counter + 1 else global_counter)
       ∧ (all_set (input_value, flag1, flag2, flag3) = true
          ↔ r = "High value" ∨ r = "Very high value").
Proof.
  unfold complex_function_with_many_branches, all_set.
  destruct (0 <? input_value), flag1, flag2, flag3; cbn;
    try destruct (100 <? input_value);
    eexists; (split; [reflexivity|]); split; intros H; try done; auto;
    by destruct H.
Qed.

(** X18. Over any run of calls of [complex_function_with_many_branches],
    [global_counter] grows by the number of calls with a positive value and
    all three flags set, which is also the number of calls that returned
    "High value" or "Very high value"; every call returns a result. *)
Theorem global_counter_counts (args : list (Z * bool * bool * bool)) (global_counter : Z) :
  ∃ results global_counter',
    complex_function_calls args global_counter = (results, global_counter')
    ∧ length results = length args
    ∧ global_counter' = global_counter + Z.of_nat (length (filter all_set args))
    ∧ global_counter'
      = global_counter
        + Z.of_nat (length (filter (λ r, r = "High value" ∨ r = "Very high value")
                                   results)).
Proof.
  revert global_counter.
  induction args as [|[[[v f1] f2] f3] args IH]; intros global_counter.
  - eexists _, _. split; [reflexivity|]. cbn. repeat split; lia.
  - cbn [complex_function_calls].
    destruct (complex_function_counter v f1 f2 f3 global_counter) as (r & -> & Hr).
    destruct (IH (if all_set (v, f1, f2, f3) then global_counter + 1 else global_counter))
      as (results & counter' & -> & Hlen & Hargs & Hres).
    eexists _, _. split; [reflexivity|]. split; [cbn; lia|].
    rewrite !filter_cons.
    destruct (all_set (v, f1, f2, f3)) eqn:Hset.
    + rewrite decide_True by exact I.
      rewrite decide_True by (by apply Hr). cbn [length]. lia.
    + rewrite decide_False by (by intros []).
      rewrite decide_False by (intros Hhigh; apply Hr in Hhigh; done). lia.
Qed.

(** * Instances *)

Lemma add_expense_invalid_raises_witness :
  ∃ why self' w',
    add_expense hash0 clock0 today0 fresh_tracker 50 "食物" " 　" (Some june15) empty_world
      = (Raise (ValueError why), self', w')
    ∧ self' = fresh_tracker
    ∧ expenses self' = expenses fresh_tracker
    ∧ length (expenses self') = length (expenses fresh_tracker)
    ∧ files w' = files empty_world
    ∧ log w' = (log empty_world ++ [(ERROR, MsgAddFailed (ValueError why))])%list.
Proof.
  apply (add_expense_invalid_raises hash0 clock0 today0 fresh_tracker 50 "食物" " 　"
           (Some june15) empty_world).
  right. reflexivity.
Defined.

Lemma add_expense_valid_appends_witness :
  ∃ expense self' w',
    add_expense hash0 clock0 today0 fresh_tracker 50 "食物" " 麵包　" None empty_world
      = (Return true, self', w')
    ∧ expenses self' = (expenses fresh_tracker ++ [expense])%list
    ∧ length (expenses self') = S (length (expenses fresh_tracker))
    ∧ amount expense = 50%float
    ∧ category expense = "食物"
    ∧ description expense = strip " 麵包　"
    ∧ date expense = today0 (ticks empty_world)
    ∧ "食物" ∈ categories self'
    ∧ get_expenses_by_category self' "食物"
      = (get_expenses_by_category fresh_tracker "食物" ++ [expense])%list
    ∧ (data_file fresh_tracker ∉ readonly empty_world →
       files w' !! data_file fresh_tracker = Some (Json (to_dict <$> expenses self'))).
Proof.
  apply (add_expense_valid_appends hash0 clock0 today0 fresh_tracker 50 "食物" " 麵包　"
           None empty_world).
  - reflexivity.
  - vm_compute. discriminate.
Defined.

(** C2 as the specification words it fails: a negative amount together with
    a blank description is accepted by the constructor. *)
Lemma Expense_new_validates_counterexample :
  ¬ (∀ (hash : string → Z) (clock : nat → Z) (amount0 : float)
       (category0 description0 : string) (date0 : Date) (id0 : option string)
       (w : World),
       PrimFloat.leb amount0 0 = true ∨ strip description0 = "" →
       ∃ why w', Expense_new hash clock amount0 category0 description0 date0 id0 w
                 = (Raise (ValueError why), w')).
Proof.
  intros claim.
  destruct (claim hash0 clock0 (-5)%float "food" "  " june15 None empty_world)
    as (why & w' & Hraise).
  - left. reflexivity.
  - discriminate Hraise.
Qed.

(** C3 as the specification words it fails on the description: surrounding
    blanks are removed before the expense is stored. *)
Lemma add_expense_preserves_description_counterexample :
  ¬ (∀ (hash : string → Z) (clock : nat → Z) (today : nat → Date)
       (self : ExpenseTracker) (amount0 : float) (category0 description0 : string)
       (date0 : Date) (w : World),
       PrimFloat.ltb 0 amount0 = true →
       strip description0 ≠ "" →
       ∃ expense self' w',
         add_expense hash clock today self amount0 category0 description0 (Some date0) w
           = (Return true, self', w')
         ∧ expenses self' = (expenses self ++ [expense])%list
         ∧ amount expense = amount0
         ∧ category expense = category0
         ∧ description expense = description0
         ∧ date expense = date0).
Proof.
  intros claim.
  destruct (claim hash0 clock0 today0 fresh_tracker 50%float "food" " lunch " june15
              empty_world) as (expense & self' & w' & Hadd & Hexp & _ & _ & Hdesc & _).
  - reflexivity.
  - vm_compute. discriminate.
  - apply (f_equal (λ r, expenses (snd (fst r)))) in Hadd.
    cbn [fst snd] in Hadd. rewrite <- Hadd in Hexp.
    vm_compute in Hexp. injection Hexp as <-.
    discriminate Hdesc.
Qed.

Lemma save_then_reload_witness :
  ∃ self' w',
    ExpenseTracker_init hash0 clock0 (data_file june_tracker)
      (_save_expenses june_tracker empty_world) = (self', w')
    ∧ data_file self' = data_file june_tracker
    ∧ expenses self' = expenses june_tracker
    ∧ length (expenses self') = length (expenses june_tracker)
    ∧ id <$> expenses self' = id <$> expenses june_tracker.
Proof.
  apply (save_then_reload hash0 clock0 june_tracker empty_world).
  apply not_elem_of_empty.
Defined.

(** C4 as the specification words it fails when two expenses share an id,
    which two additions within one second produce: removing that id takes
    both away, and the collection shrinks by two. *)
Lemma remove_expense_only_first_counterexample :
  ¬ (∀ (self : ExpenseTracker) (expense_id : string) (w : World),
       (∃ exp, exp ∈ expenses self ∧ id exp = expense_id) →
       ∃ found self' w',
         remove_expense self expense_id w = (found, self', w')
         ∧ found = true
         ∧ length (expenses self) = S (length (expenses self'))).
Proof.
  intros claim.
  destruct (claim (fst after_two_adds) "1700000000_3456" (snd after_two_adds))
    as (found & self' & w' & Hremove & _ & Hlen).
  - exists (mkExpense 50 "food" "lunch" june15 "1700000000_3456").
    split; [|reflexivity]. vm_compute. left.
  - apply (f_equal (λ r, length (expenses (snd (fst r))))) in Hremove.
    cbn [fst snd] in Hremove. rewrite <- Hremove in Hlen.
    vm_compute in Hlen. discriminate Hlen.
Qed.

(** C9 as the specification words it fails on a missing key: without
    ["date"] the exception is [KeyError], not [ValueError]. *)
Lemma from_dict_missing_field_counterexample :
  ¬ (∀ `{!Interpreter} (hash : string → Z) (clock : nat → Z) (data : Dict) (w : World),
       d_amount data = None ∨ d_category data = None ∨ d_description data = None
       ∨ d_date data = None
       ∨ (∃ s e, d_date data = Some s ∧ fromisoformat s = Raise e) →
       ∃ why w', from_dict hash clock data w = (Raise (ValueError why), w')).
Proof.
  intros claim.
  destruct (claim cpython312 hash0 clock0
              (mkDict (Some 10%float) (Some "food") (Some "lunch") None (Some (Some "a")) [])
              empty_world) as (why & w' & Hraise).
  - right; right; right; left. reflexivity.
  - discriminate Hraise.
Qed.

(** * The scenarios of the test suite *)

(** [test_calculate_monthly_summary]: June 2024 holds 100 + 200 + 80. *)
Example june_summary :
  let summary := calculate_monthly_summary py_round june_tracker 2024 6 in
  total_amount summary = 380%float
  ∧ expense_count summary = 3%nat
  ∧ average_amount summary = 126.67%float
  ∧ category_summary summary !! "food" = Some 180%float
  ∧ category_summary summary !! "shopping" = Some 200%float
  ∧ dom (category_summary summary) = {[ "food"; "shopping" ]}.
Proof. vm_compute. repeat split. Qed.

(** [test_calculate_monthly_summary_empty_month]. *)
Example december_summary :
  calculate_monthly_summary py_round june_tracker 2024 12 = mkSummary 0 0 0 ∅.
Proof. reflexivity. Qed.

(** [test_calculate_total_by_category], with the amounts 50, 120, 80, 200, 60. *)
Example totals_by_category :
  let self := mkTracker "expenses.json"
    [ mkExpense 50 "food" "breakfast" june15 "a";
      mkExpense 120 "food" "lunch" june15 "b";
      mkExpense 80 "transit" "metro" june15 "c";
      mkExpense 200 "fun" "film" june15 "d";
      mkExpense 60 "transit" "bus" may15 "e" ] default_categories in
  calculate_total_by_category self
  = {[ "food" := 170%float; "transit" := 140%float; "fun" := 200%float ]}.
Proof. vm_compute. reflexivity. Qed.

(** [test_get_expenses_by_date_range]: the bounds themselves are inside. *)
Example may_is_outside_june :
  description <$> get_expenses_by_date_range june_tracker june15 june15
  = ["restaurant"; "clothes"; "market"].
Proof. reflexivity. Qed.

(** A backing file that is not JSON, and one whose second object lacks its
    amount: both give an empty tracker. *)
Example init_on_malformed_file :
  let w := mkWorld {[ "expenses.json" := Malformed ]} ∅ [] 0 in
  let '(self, w') := ExpenseTracker_init hash0 clock0 "expenses.json" w in
  expenses self = []
  ∧ log w' = [(ERROR, MsgJsonError); (INFO, MsgInitialized 0)].
Proof. vm_compute. split; reflexivity. Qed.

Example init_on_partly_bad_file :
  let good := to_dict (mkExpense 100 "food" "restaurant" june15 "a") in
  let bad := mkDict None (Some "food") (Some "market") (Some "2024-06-15") None [] in
  let w := mkWorld {[ "expenses.json" := Json [good; bad] ]} ∅ [] 0 in
  let '(self, w') := ExpenseTracker_init hash0 clock0 "expenses.json" w in
  expenses self = []
  ∧ log w' = [(ERROR, MsgLoadError TypeError); (INFO, MsgInitialized 0)].
Proof. vm_compute. split; reflexivity. Qed.

(** [test_data_persistence], and the same path when it cannot be written:
    the new tracker then starts empty. *)
Example reload_after_add :
  let '(self, w) := after_two_adds in
  expenses (fst (ExpenseTracker_init hash0 clock0 "expenses.json" w)) = expenses self.
Proof. vm_compute. reflexivity. Qed.

Example reload_after_failed_save :
  let w := mkWorld ∅ {[ "expenses.json" ]} [] 0 in
  let '(_, self, w') := add_expense hash0 clock0 today0 fresh_tracker 50 "food" "lunch" None w in
  length (expenses self) = 1%nat
  ∧ expenses (fst (ExpenseTracker_init hash0 clock0 "expenses.json" w')) = [].
Proof. vm_compute. split; reflexivity. Qed.

(** * The library functions, run *)

(** [str.strip] on the texts of the repository: no character is cut, and
    the ideographic space U+3000 is a blank like the space. *)
Example strip_keeps_characters :
  strip "麵包" = "麵包" ∧ strip " 午餐 - 日式料理　" = "午餐 - 日式料理".
Proof. split; reflexivity. Qed.

Example strip_blanks_beyond_ascii : strip "　" = "" ∧ strip " 　 " = "".
Proof. split; reflexivity. Qed.

(** 包 and 匠 differ in their last byte only, which in 包 is 0x85. *)
Example strip_tells_characters_apart : strip "　包" ≠ strip "　匠".
Proof. vm_compute. discriminate. Qed.

Example add_expense_blank_description :
  (add_expense hash0 clock0 today0 fresh_tracker 50 "食物" "　" None empty_world).1.1
  = Raise (ValueError EmptyDescription).
Proof. reflexivity. Qed.

Example add_expense_chinese_description :
  description
    <$> expenses (add_expense hash0 clock0 today0 fresh_tracker 250 "食物"
                    " 午餐 - 日式料理　" (Some june15) empty_world).1.2
  = ["午餐 - 日式料理"].
Proof. reflexivity. Qed.

(** [date.fromisoformat] before and after 3.11: the basic format and the
    week format are read from 3.11 on; a day outside the calendar never. *)
Example fromisoformat_by_release :
  @fromisoformat cpython310 "20240615" = Raise (ValueError InvalidIsoformat)
  ∧ @fromisoformat cpython311 "20240615" = Return june15
  ∧ @fromisoformat cpython312 "2024-W24-6" = Return june15
  ∧ @fromisoformat cpython310 "2024-06-15" = Return june15
  ∧ @fromisoformat cpython312 "2024-06-31" = Raise (ValueError InvalidIsoformat)
  ∧ @fromisoformat cpython312 "2024-6-15" = Raise (ValueError InvalidIsoformat).
Proof. vm_compute. repeat split. Qed.

Example from_dict_basic_format :
  (@from_dict cpython311 hash0 clock0
     (mkDict (Some 50%float) (Some "food") (Some "lunch") (Some "20240615")
        (Some (Some "a")) []) empty_world).1
  = Return (mkExpense 50 "food" "lunch" june15 "a").
Proof. vm_compute. reflexivity. Qed.

(** The builtin [sum] before and after 3.12: the compensation recovers the
    1 that the plain sum loses next to 1e16. *)
Example total_of_by_release :
  @total_of cpython311 [1e16%float; 1%float; (-1e16)%float] = 0%float
  ∧ @total_of cpython312 [1e16%float; 1%float; (-1e16)%float] = 1%float
  ∧ @total_of cpython311 [0.1%float; 0.2%float; 0.3%float] = 0.6000000000000001%float
  ∧ @total_of cpython312 [0.1%float; 0.2%float; 0.3%float] = 0.6%float.
Proof. vm_compute. repeat split. Qed.

(** * Instances of the further properties *)

Lemma date_range_inverted_witness :
  get_expenses_by_date_range june_tracker june30 june1 = [].
Proof. apply (date_range_inverted june_tracker june30 june1). reflexivity. Defined.

Lemma month_is_a_date_range_witness :
  get_expenses_by_date_range june_tracker june1 june30
  = filter (λ exp, year (date exp) = year june1 ∧ month (date exp) = month june1)
           (expenses june_tracker).
Proof.
  apply (month_is_a_date_range june_tracker june1 june30); reflexivity.
Defined.

Lemma add_expense_unwritable_witness :
  ∃ expense self' w',
    add_expense hash0 clock0 today0 fresh_tracker nan "food" "lunch" None locked_world
      = (Return true, self', w')
    ∧ expenses self' = (expenses fresh_tracker ++ [expense])%list
    ∧ files w' = files locked_world
    ∧ (ERROR, MsgSaveError OSError) ∈ log w'.
Proof.
  apply (add_expense_unwritable hash0 clock0 today0 fresh_tracker nan "food" "lunch" None
           locked_world).
  - reflexivity.
  - vm_compute. discriminate.
  - vm_compute. reflexivity.
Defined.

Lemma add_expense_then_reload_witness :
  ∃ self' w',
    add_expense hash0 clock0 today0 june_tracker 50 "food" "lunch" None world_with_file
      = (Return true, self', w')
    ∧ length (expenses self') = S (length (expenses june_tracker))
    ∧ expenses (ExpenseTracker_init hash0 clock0 (data_file june_tracker) w').1
      = expenses self'.
Proof.
  apply (add_expense_then_reload hash0 clock0 today0 june_tracker 50 "food" "lunch" None
           world_with_file).
  - reflexivity.
  - vm_compute. discriminate.
  - apply not_elem_of_empty.
Defined.

Lemma totals_after_add_witness :
  ∃ self' w',
    add_expense hash0 clock0 today0 june_tracker 50 "food" "lunch" None empty_world
      = (Return true, self', w')
    ∧ calculate_total_by_category self' !! "food"
      = Some (match calculate_total_by_category june_tracker !! "food" with
              | Some t => PrimFloat.add t 50
              | None => 50%float
              end)
    ∧ (∀ c, c ≠ "food" →
       calculate_total_by_category self' !! c
       = calculate_total_by_category june_tracker !! c).
Proof.
  apply (totals_after_add hash0 clock0 today0 june_tracker 50 "food" "lunch" None
           empty_world).
  - reflexivity.
  - vm_compute. discriminate.
Defined.

Lemma add_then_remove_witness :
  ∃ expense self1 w1,
    add_expense hash0 clock0 today0 june_tracker 50 "food" "lunch" None empty_world
      = (Return true, self1, w1)
    ∧ expenses self1 = (expenses june_tracker ++ [expense])%list
    ∧ ((∀ exp, exp ∈ expenses june_tracker → id exp ≠ id expense) →
       ∃ self2 w2,
         remove_expense self1 (id expense) w1 = (true, self2, w2)
         ∧ expenses self2 = expenses june_tracker).
Proof.
  apply (add_then_remove hash0 clock0 today0 june_tracker 50 "food" "lunch" None
           empty_world).
  - reflexivity.
  - vm_compute. discriminate.
Defined.

Lemma remove_expense_then_reload_witness :
  ∃ self' w',
    remove_expense june_tracker "b" empty_world = (true, self', w')
    ∧ expenses self' = filter (λ exp, id exp ≠ "b") (expenses june_tracker)
    ∧ expenses (ExpenseTracker_init hash0 clock0 (data_file june_tracker) w').1
      = expenses self'.
Proof.
  apply (remove_expense_then_reload hash0 clock0 june_tracker "b" empty_world).
  - apply not_elem_of_empty.
  - exists (mkExpense 200 "shopping" "clothes" june15 "b").
    split; [|reflexivity]. right. left.
Defined.

Lemma from_dict_id_witness :
  (d_id (mkDict (Some 0%float) (Some "misc") (Some " ") (Some "2024-05-15") None []) = None
   ∨ d_id (mkDict (Some 0%float) (Some "misc") (Some " ") (Some "2024-05-15") None [])
     = Some None →
   from_dict hash0 clock0
     (mkDict (Some 0%float) (Some "misc") (Some " ") (Some "2024-05-15") None [])
     empty_world
   = (Return (mkExpense 0 "misc" " " may15
                (pretty (clock0 (ticks empty_world)) ++ "_"
                 ++ pretty (hash0 " " mod 10000))),
      tick empty_world)
   ∧ 0 ≤ hash0 " " mod 10000 < 10000)
  ∧ (∀ i, d_id (mkDict (Some 0%float) (Some "misc") (Some " ") (Some "2024-05-15") None [])
          = Some (Some i) →
     from_dict hash0 clock0
       (mkDict (Some 0%float) (Some "misc") (Some " ") (Some "2024-05-15") None [])
       empty_world
     = (Return (mkExpense 0 "misc" " " may15 i), empty_world)).
Proof.
  apply (from_dict_id hash0 clock0
           (mkDict (Some 0%float) (Some "misc") (Some " ") (Some "2024-05-15") None [])
           empty_world "2024-05-15" may15 0%float "misc" " "); reflexivity.
Defined.

Lemma load_keeps_order_witness :
  Forall2 stands_for two_objects
    (expenses (ExpenseTracker_init hash0 clock0 "expenses.json" world_with_file).1).
Proof.
  apply (load_keeps_order hash0 clock0 "expenses.json" world_with_file two_objects).
  - reflexivity.
  - repeat constructor.
    + exists "2024-06-15", june15. repeat split; by eexists.
    + exists "2024-05-15", may15. repeat split; by eexists.
Defined.

Lemma session_then_reload_witness :
  ∃ self0 w0 self' w',
    ExpenseTracker_init hash0 clock0 "expenses.json" empty_world = (self0, w0)
    ∧ run_calls hash0 clock0 today0 some_calls self0 w0 = (self', w')
    ∧ expenses (ExpenseTracker_init hash0 clock0 "expenses.json" w').1 = expenses self'.
Proof.
  apply (session_then_reload hash0 clock0 today0 "expenses.json" empty_world some_calls).
  - apply not_elem_of_empty.
  - left. reflexivity.
Defined.

Lemma session_keeps_checks_witness :
  ∃ self0 w0 self' w',
    ExpenseTracker_init hash0 clock0 "expenses.json" empty_world = (self0, w0)
    ∧ run_calls hash0 clock0 today0 some_calls self0 w0 = (self', w')
    ∧ default_categories ⊆ categories self'
    ∧ ∀ exp, exp ∈ expenses self' →
        PrimFloat.leb (amount exp) 0 = false
        ∧ description exp ≠ ""
        ∧ strip (description exp) = description exp
        ∧ category exp ∈ categories self'.
Proof.
  apply (session_keeps_checks hash0 clock0 today0 "expenses.json" empty_world some_calls).
  reflexivity.
Defined.

Lemma monthly_summary_no_such_month_witness :
  calculate_monthly_summary py_round june_tracker 2024 13 = mkSummary 0 0 0 ∅.
Proof.
  apply (monthly_summary_no_such_month py_round june_tracker 2024 13). lia.
Defined.

Lemma add_twice_same_id_witness :
  ∃ expense1 expense2 self1 w1 self2 w2,
    add_expense hash0 clock0 today0 june_tracker 50 "food" "午餐" (Some june15) empty_world
      = (Return true, self1, w1)
    ∧ add_expense hash0 clock0 today0 self1 30 "fun" "　午餐 " (Some may15) w1
      = (Return true, self2, w2)
    ∧ expenses self2 = (expenses june_tracker ++ [expense1; expense2])%list
    ∧ id expense1 = id expense2
    ∧ expenses (remove_expense self2 (id expense1) w2).1.2
      = filter (λ exp, id exp ≠ id expense1) (expenses june_tracker).
Proof.
  apply (add_twice_same_id hash0 clock0 today0 june_tracker 50 30 "food" "fun"
           "午餐" "　午餐 " june15 may15 empty_world).
  - reflexivity.
  - reflexivity.
  - vm_compute. discriminate.
  - reflexivity.
  - reflexivity.
Defined.

(** The session above, run: two expenses are kept, the first stripped. *)
Example some_calls_run :
  let '(self0, w0) := ExpenseTracker_init hash0 clock0 "expenses.json" empty_world in
  let '(self', w') := run_calls hash0 clock0 today0 some_calls self0 w0 in
  (description <$> expenses self') = ["lunch"; "novel"]
  ∧ files w' !! "expenses.json" = Some (Json (to_dict <$> expenses self')).
Proof. vm_compute. split; reflexivity. Qed.

(** The call [main] of the script makes: no change of the counter. *)
Example complex_function_main :
  complex_function_with_many_branches 50 true true false 0 = ("Medium value", 0).
Proof. reflexivity. Qed.
